(** * shyft core: utctime utilities (src/core/utctime_utilities.h)

    A shallow embedding of the instant / period / time-zone-table part of the
    header, and the properties of it that the calendar specification relies on.

    Conventions of the embedding

    - [utctime] and [utctimespan] are [std::chrono] values over a signed
      64-bit microsecond count; they are embedded as [Z], the count itself.
      Arithmetic that the header performs on the count is written with its
      two's-complement wrap-around ([wrap64]); comparisons are those of [Z].
    - [int] is a signed 32-bit integer, embedded as [Z] with [wrap32].
    - C++ [/] and [lldiv] truncate toward zero: [Z.quot] and [Z.rem].
    - A call that can throw, or index a [std::vector] outside its size, returns
      an [outcome]. *)

From Stdlib Require Import ZArith List String Bool Lia.
From Stdlib Require Import DecimalString.
From Stdlib Require Import FMapList FMapFacts OrderedTypeEx.
Import ListNotations.

Local Open Scope Z_scope.

(** ** Machine integers *)

Module Int.

Definition min_int64 : Z := - 2 ^ 63.
Definition max_int64 : Z := 2 ^ 63 - 1.

(** The signed 64-bit value with the same residue modulo 2^64. *)
Definition wrap64 (z : Z) : Z := (z + 2 ^ 63) mod 2 ^ 64 - 2 ^ 63.

Definition in_int64 (z : Z) : Prop := min_int64 <= z <= max_int64.

Definition min_int32 : Z := - 2 ^ 31.
Definition max_int32 : Z := 2 ^ 31 - 1.

(** The signed 32-bit value with the same residue modulo 2^32. *)
Definition wrap32 (z : Z) : Z := (z + 2 ^ 31) mod 2 ^ 32 - 2 ^ 31.

Definition in_int32 (z : Z) : Prop := min_int32 <= z <= max_int32.

(** Conversion of a signed value to [unsigned long] / [size_t] (64 bits). *)
Definition to_uint64 (z : Z) : Z := z mod 2 ^ 64.

End Int.
Import Int.

(** ** Outcomes of calls *)

(** What a call does: it returns a value, it throws [std::runtime_error]
    with a message, or it reads a vector element beyond [size()]. *)
Inductive outcome (A : Type) : Type :=
| Returns (a : A)
| Throws (what : string)
| OutOfBounds.

Arguments Returns {A} a.
Arguments Throws {A} what.
Arguments OutOfBounds {A}.

Definition bind {A B : Type} (m : outcome A) (k : A -> outcome B) : outcome B :=
  match m with
  | Returns a => k a
  | Throws w => Throws w
  | OutOfBounds => OutOfBounds
  end.

Notation "x <- m ;; k" := (bind m (fun x => k))
  (at level 61, m at next level, right associativity).

(** [v[i]] for a [std::vector] [v] and an index [i] that has already been
    converted to [size_t]. *)
Definition vector_at {A : Type} (v : list A) (i : Z) : outcome A :=
  if (0 <=? i) && (i <? Z.of_nat (List.length v))
  then match nth_error v (Z.to_nat i) with
       | Some a => Returns a
       | None => OutOfBounds
       end
  else OutOfBounds.

(** ** Instants and time spans *)

Definition utctime : Type := Z.
Definition utctimespan : Type := Z.

(** [utctime::max()], [utctime::min()]. *)
Definition utctime_max : utctime := max_int64.
Definition utctime_min : utctime := min_int64.

Definition deltahours (h : Z) : utctimespan := wrap64 (h * 3600000000).
Definition deltaminutes (m : Z) : utctimespan := wrap64 (m * 60000000).

Definition max_utctime : utctime := utctime_max.
Definition min_utctime : utctime := wrap64 (- utctime_min).
Definition no_utctime : utctime := utctime_min.

Definition is_valid (t : utctime) : bool := negb (t =? no_utctime).

(** [floor(t, dt)]. *)
Definition floor (t : utctime) (dt : utctimespan) : utctime :=
  let den := dt in
  if den =? 0 then t
  else
    let num := t in
    if 0 <? Z.lxor num den
    then wrap64 (den * wrap64 (Z.quot num den))
    else
      let quot := wrap64 (Z.quot num den) in
      let rem := Z.rem num den in
      if negb (rem =? 0)
      then wrap64 (den * wrap64 (quot - 1))
      else wrap64 (den * quot).

(** ** Periods *)

Record utcperiod : Type := mk_utcperiod { start : utctime; end_ : utctime }.

(** The default constructor. *)
Definition utcperiod_default : utcperiod := mk_utcperiod no_utctime no_utctime.

Module Period.

Definition timespan (p : utcperiod) : utctimespan := wrap64 (end_ p - start p).

Definition valid (p : utcperiod) : bool :=
  negb (start p =? no_utctime) && negb (end_ p =? no_utctime)
  && (start p <=? end_ p).

Definition contains (p : utcperiod) (t : utctime) : bool :=
  if is_valid t && valid p then (t >=? start p) && (t <? end_ p) else false.

Definition contains_period (q p : utcperiod) : bool :=
  valid q && valid p && (start p >=? start q) && (end_ p <=? end_ q).

(** [a.overlaps(p)]. *)
Definition overlaps (a p : utcperiod) : bool :=
  if (start p >=? end_ a) || (end_ p <=? start a) then false else true.

End Period.

Definition intersection (a b : utcperiod) : utcperiod :=
  let t0 := Z.max (start a) (start b) in
  let t1 := Z.min (end_ a) (end_ b) in
  if t0 <=? t1 then mk_utcperiod t0 t1 else utcperiod_default.

(** ** Calendar coordinates *)

Module YMDhms.

Definition YEAR_MAX : Z := 9999.
Definition YEAR_MIN : Z := -9999.

Record t : Type := mk
  { year : Z; month : Z; day : Z; hour : Z; minute : Z; second : Z }.

(** The default constructor: the null value, built without a check. *)
Definition null : t := mk 0 0 0 0 0 0.

Definition is_valid_coordinates (c : t) : bool :=
  negb ((year c <? YEAR_MIN) || (year c >? YEAR_MAX)
        || (month c <? 1) || (month c >? 12)
        || (day c <? 1) || (day c >? 31)
        || (hour c <? 0) || (hour c >? 23)
        || (minute c <? 0) || (minute c >? 59)
        || (second c <? 0) || (second c >? 59)).

Definition is_null (c : t) : bool :=
  (year c =? 0) && (month c =? 0) && (day c =? 0)
  && (hour c =? 0) && (minute c =? 0) && (second c =? 0).

Definition is_valid (c : t) : bool := is_null c || is_valid_coordinates c.

(** The checking constructor [YMDhms(Y, M, D, h, m, s)]. *)
Definition make (Y M D h m s : Z) : outcome t :=
  let c := mk Y M D h m s in
  if negb (is_valid c)
  then Throws "calendar coordinates failed simple range check for one or more item"%string
  else Returns c.

End YMDhms.

Module YWdhms.

Record t : Type := mk
  { iso_year : Z; iso_week : Z; week_day : Z;
    hour : Z; minute : Z; second : Z }.

Definition null : t := mk 0 0 0 0 0 0.

Definition is_null (c : t) : bool :=
  (iso_year c =? 0) && (iso_week c =? 0) && (week_day c =? 0)
  && (hour c =? 0) && (minute c =? 0) && (second c =? 0).

Definition is_valid_coordinates (c : t) : bool :=
  negb ((iso_year c <? YMDhms.YEAR_MIN) || (iso_year c >? YMDhms.YEAR_MAX)
        || (iso_week c <? 1) || (iso_week c >? 53)
        || (week_day c <? 1) || (week_day c >? 7)
        || (hour c <? 0) || (hour c >? 23)
        || (minute c <? 0) || (minute c >? 59)
        || (second c <? 0) || (second c >? 59)).

Definition is_valid (c : t) : bool := is_null c || is_valid_coordinates c.

(** The checking constructor [YWdhms(iso_year, iso_week, week_day, h, m, s)]. *)
Definition make (Y W wd h m s : Z) : outcome t :=
  let c := mk Y W wd h m s in
  if negb (is_valid c)
  then Throws "calendar iso week coordinates failed simple range check for one or more item"%string
  else Returns c.

End YWdhms.

(** ** The static part of [calendar] *)

Module calendar.

(** Modelled from the spec: the values of the constants [SECOND], [MINUTE],
    [HOUR] and [DAY], which the header only declares ("SECOND = 10^6;
    MINUTE = 60 SECOND; HOUR = 60 MINUTE; DAY = 24 HOUR"). *)
Definition SECOND : utctimespan := 1000000.
Definition MINUTE : utctimespan := 60 * SECOND.
Definition HOUR : utctimespan := 60 * MINUTE.
Definition DAY : utctimespan := 24 * HOUR.

(** Modelled from the spec: the values of the constants [UnixDay] and
    [UnixSecond], which the header only declares ("UnixDay = 2440588",
    "UnixSecond = UnixDay * 86400 = 210866803200"). *)
Definition UnixDay : Z := 2440588.
Definition UnixSecond : Z := UnixDay * 86400.

(** [std::chrono::duration_cast<std::chrono::seconds>] of a microsecond
    count: the quotient by 10^6, truncated toward zero. *)
Definition to_seconds_count (us : Z) : Z := Z.quot us 1000000.

(** [day_number(utctime t)]. *)
Definition day_number (t : utctime) : Z :=
  Z.quot (wrap64 (UnixSecond + to_seconds_count t)) (to_seconds_count DAY).

Section UtcYear.

(** [from_day_number] is declared in the header and defined elsewhere; its
    argument is the [unsigned long] day number. *)
Variable from_day_number : Z -> outcome YMDhms.t.

(** [utc_year(t)]. *)
Definition utc_year (t : utctime) : outcome Z :=
  if t =? no_utctime then Throws "year of no_utctime"%string
  else if t =? max_utctime then Returns YMDhms.YEAR_MAX
  else if t =? min_utctime then Returns YMDhms.YEAR_MIN
  else c <- from_day_number (to_uint64 (day_number t)) ;;
       Returns (YMDhms.year c).

End UtcYear.

(** Modelled from the spec: the body of [from_day_number], which the header
    only declares ("snapped from boost gregorian_calendar.ipp"; in the spec
    "the standard textbook inversion" of the serial day number).  It is
    used to run [utc_year] on concrete instants. *)
Definition from_day_number (dayNumber : Z) : outcome YMDhms.t :=
  let a := dayNumber + 32044 in
  let b := Z.quot (4 * a + 3) 146097 in
  let c := a - Z.quot (146097 * b) 4 in
  let d := Z.quot (4 * c + 3) 1461 in
  let e := c - Z.quot (1461 * d) 4 in
  let m := Z.quot (5 * e + 2) 153 in
  let day := e - Z.quot (153 * m + 2) 5 + 1 in
  let month := m + 3 - 12 * Z.quot m 10 in
  let year := 100 * b + d - 4800 + Z.quot m 10 in
  YMDhms.make year month day 0 0 0.

(** [hms_seconds(h, m, s)]: the three durations are added as microsecond
    counts. *)
Definition hms_seconds (h m s : Z) : utctimespan :=
  wrap64 (wrap64 (deltahours h + deltaminutes m) + wrap64 (s * 1000000)).

End calendar.

(** ** printf *)

Module Printf.

Definition digits (n : Z) : string :=
  NilZero.string_of_uint (N.to_uint (Z.abs_N n)).

Fixpoint replicate (k : nat) (c : string) : string :=
  match k with
  | O => EmptyString
  | S k' => append c (replicate k' c)
  end.

(** The C conversion [%d] of [n] with the flags [+] (when [plus]) and [0]
    (when [zero]) and a minimum field width [width]: the sign and the digits
    count toward the width, and padding fills what is left of it. *)
Definition format_d (plus zero : bool) (width : nat) (n : Z) : string :=
  let sign := if n <? 0 then "-"%string else if plus then "+"%string else EmptyString in
  let ds := digits n in
  let pad := (width - (String.length sign + String.length ds))%nat in
  if zero
  then append sign (append (replicate pad "0"%string) ds)
  else append (replicate pad " "%string) (append sign ds).

End Printf.

(** ** The time-zone table *)

Module tz_table.

Record t : Type := mk
  { start_year : Z;
    tz_name : string;
    dst : list utcperiod;
    dt : list utctimespan }.

(** [explicit tz_table(utctimespan dt)]: [sprintf(s, "UTC%+02d", ...)]. *)
Definition of_offset (dt0 : utctimespan) : t :=
  let s := append "UTC"%string
             (Printf.format_d true true 2 (wrap32 (Z.quot dt0 (deltahours 1)))) in
  mk 0 s [] [].

(** [tz_table()]. *)
Definition default : t := mk 0 "UTC+00"%string [] [].

Definition is_dst (tz : t) : bool := (0 <? Z.of_nat (List.length (dst tz))).

Definition name (tz : t) : string := tz_name tz.

(** The subscript [year - start_year], an [int], as [operator[]] receives it. *)
Definition index (tz : t) (year : Z) : Z :=
  to_uint64 (wrap32 (year - start_year tz)).

Definition dst_start (tz : t) (year : Z) : outcome utctime :=
  if is_dst tz
  then p <- vector_at (dst tz) (index tz year) ;; Returns (start p)
  else Returns no_utctime.

Definition dst_end (tz : t) (year : Z) : outcome utctime :=
  if is_dst tz
  then p <- vector_at (dst tz) (index tz year) ;; Returns (end_ p)
  else Returns no_utctime.

Section DstOffset.

Variable from_day_number : Z -> outcome YMDhms.t.

(** [tz_table::dst_offset(t)]. *)
Definition dst_offset (tz : t) (t : utctime) : outcome utctimespan :=
  if negb (is_dst tz) then Returns 0
  else
    year <- calendar.utc_year from_day_number t ;;
    if wrap32 (year - start_year tz) >=? wrap32 (Z.of_nat (List.length (dst tz)))
    then Returns 0
    else
      s <- dst_start tz year ;;
      e <- dst_end tz year ;;
      if (if s <? e then (t >=? s) && (t <? e) else (t <? e) || (t >=? s))
      then vector_at (dt tz) (index tz year)
      else Returns 0.

End DstOffset.

(** A rule provider [Tz]: what the template constructor asks of it. *)
Record provider : Type := mk_provider
  { p_dst_start : Z -> utctime;
    p_dst_end : Z -> utctime;
    p_dst_offset : Z -> utctimespan;
    p_name : string }.

(** [n] rounds of the loop body of the template constructor, from the year
    [y] on: [emplace_back] on [dst], [push_back] on [dt], [++y]. *)
Fixpoint fill (tz : provider) (y : Z) (n : nat)
    (dst0 : list utcperiod) (dt0 : list utctimespan)
  : list utcperiod * list utctimespan :=
  match n with
  | O => (dst0, dt0)
  | S n' =>
      fill tz (y + 1) n'
        (dst0 ++ [mk_utcperiod (p_dst_start tz y) (p_dst_end tz y)])
        (dt0 ++ [p_dst_offset tz y])
  end.

(** [tz_table(tz, start_year, n_years)]: the loop runs while
    [y < int(start_year + n_years)], the sum taken in [size_t]. *)
Definition of_provider (tz : provider) (start_year0 : Z) (n_years : Z) : t :=
  let bound := wrap32 (to_uint64 (to_uint64 start_year0 + n_years)) in
  let filled := fill tz start_year0 (Z.to_nat (bound - start_year0)) [] [] in
  mk start_year0 (p_name tz) (fst filled) (snd filled).

End tz_table.

(** ** [tz_info<tz_table>] *)

Module tz_info.

Record t : Type := mk { base_tz : utctimespan; tz : tz_table.t }.

(** [tz_info()]. *)
Definition default : t := mk 0 tz_table.default.

(** [tz_info(base_tz)]. *)
Definition of_base (base : utctimespan) : t := mk base (tz_table.of_offset base).

Definition name (i : t) : string := tz_table.name (tz i).

Definition base_offset (i : t) : utctimespan := base_tz i.

Section UtcOffset.

Variable from_day_number : Z -> outcome YMDhms.t.

Definition utc_offset (i : t) (t0 : utctime) : outcome utctimespan :=
  d <- tz_table.dst_offset from_day_number (tz i) t0 ;;
  Returns (wrap64 (base_tz i + d)).

Definition is_dst (i : t) (t0 : utctime) : outcome bool :=
  d <- tz_table.dst_offset from_day_number (tz i) t0 ;;
  Returns (negb (d =? 0)).

End UtcOffset.

End tz_info.

(** ** The constructors of [calendar] *)

Module calendar_tz.

(** The data member of [calendar]. *)
Record t : Type := mk { tz_info : tz_info.t }.

(** [calendar(utctimespan tz)]. *)
Definition of_span (tz : utctimespan) : t := mk (tz_info.of_base tz).

(** [calendar(int tz_s)]. *)
Definition of_seconds (tz_s : Z) : t :=
  mk (tz_info.of_base (wrap64 (tz_s * 1000000))).

Definition get_tz_info (c : t) : tz_info.t := tz_info c.

End calendar_tz.

(** ** The time-zone database *)

(** [std::map<string, ...>]: a finite map with string keys, iterated in
    increasing key order. *)
Module StringMap := FMapList.Make String_as_OT.
Module StringMapFacts := FMapFacts.Facts StringMap.

Module tz_info_database.

Record t : Type := mk
  { region_tz_map : StringMap.t tz_info.t;
    name_tz_map : StringMap.t tz_info.t }.

Definition tz_info_from_region (db : t) (region_name : string)
  : outcome tz_info.t :=
  match StringMap.find region_name (region_tz_map db) with
  | Some i => Returns i
  | None =>
      Throws (append "tz region '" (append region_name "' not found"))%string
  end.

Definition tz_info_from_name (db : t) (name : string) : outcome tz_info.t :=
  match StringMap.find name (name_tz_map db) with
  | Some i => Returns i
  | None => Throws (append "tz name '" (append name "' not found"))%string
  end.

Definition get_region_list (db : t) : list string :=
  List.map fst (StringMap.elements (region_tz_map db)).

Definition get_name_list (db : t) : list string :=
  List.map fst (StringMap.elements (name_tz_map db)).

End tz_info_database.

(** ** Predicates and tables used in the statements *)

(** The documented ranges of [YMDhms] and of [YWdhms], and their null values. *)
Definition time_of_day_in_range (h m s : Z) : Prop :=
  0 <= h <= 23 /\ 0 <= m <= 59 /\ 0 <= s <= 59.

Definition ymd_in_range (Y M D h m s : Z) : Prop :=
  -9999 <= Y <= 9999 /\ 1 <= M <= 12 /\ 1 <= D <= 31
  /\ time_of_day_in_range h m s.

Definition ywd_in_range (Y W wd h m s : Z) : Prop :=
  -9999 <= Y <= 9999 /\ 1 <= W <= 53 /\ 1 <= wd <= 7
  /\ time_of_day_in_range h m s.

Definition all_zero (a b c d e f : Z) : Prop :=
  a = 0 /\ b = 0 /\ c = 0 /\ d = 0 /\ e = 0 /\ f = 0.

(** A one-year table: the summer time of Europe/Oslo in 2016, from
    2016-03-27T01:00:00Z to 2016-10-30T01:00:00Z, one hour. *)
Definition oslo_2016 : tz_table.t :=
  tz_table.mk 2016 "Europe/Oslo"
    [mk_utcperiod 1459040400000000 1477789200000000] [calendar.HOUR].

(** A one-year table of the southern hemisphere: Australia/Sydney in 2016,
    summer time until 2016-04-02T16:00:00Z and again from
    2016-10-01T16:00:00Z, one hour. *)
Definition sydney_2016 : tz_table.t :=
  tz_table.mk 2016 "Australia/Sydney"
    [mk_utcperiod 1475337600000000 1459612800000000] [calendar.HOUR].

(** A rule provider with the rule of the European Union for no year in
    particular: the same two instants of 2016 whatever the year.  It serves
    to run the template constructor. *)
Definition constant_provider : tz_table.provider :=
  tz_table.mk_provider
    (fun _ => 1459040400000000) (fun _ => 1477789200000000)
    (fun _ => calendar.HOUR) "Europe/Oslo".

(** Both endpoints of a period are 64-bit counts. *)
Definition period_in_range (p : utcperiod) : Prop :=
  in_int64 (start p) /\ in_int64 (end_ p).

(** ** Tactics *)

(** Goals and hypotheses about the 32- and 64-bit ranges, by linear
    arithmetic on the bounds. *)
Ltac int_range :=
  unfold in_int64, in_int32, min_int64, max_int64, min_int32, max_int32 in *;
  lia.

(** * Properties *)

(** ** Machine arithmetic *)

Lemma wrap64_small (z : Z) : in_int64 z -> wrap64 z = z.
Proof.
  unfold in_int64, min_int64, max_int64, wrap64; intros H.
  rewrite Z.mod_small; lia.
Qed.

Lemma wrap64_congruent (z : Z) : (wrap64 z - z) mod 2 ^ 64 = 0.
Proof.
  unfold wrap64.
  replace ((z + 2 ^ 63) mod 2 ^ 64 - 2 ^ 63 - z)
    with ((z + 2 ^ 63) mod 2 ^ 64 - (z + 2 ^ 63)) by lia.
  rewrite Zminus_mod, Z.mod_mod, Z.sub_diag by lia.
  reflexivity.
Qed.

Lemma wrap64_in_int64 (z : Z) : in_int64 (wrap64 z).
Proof.
  unfold in_int64, min_int64, max_int64, wrap64.
  pose proof (Z.mod_pos_bound (z + 2 ^ 63) (2 ^ 64) ltac:(lia)). lia.
Qed.

Lemma wrap32_small (z : Z) : in_int32 z -> wrap32 z = z.
Proof.
  unfold in_int32, min_int32, max_int32, wrap32; intros H.
  rewrite Z.mod_small; lia.
Qed.

(** Truncated and floored quotient by a positive divisor: they agree on
    non-negative dividends and on exact divisions, and differ by one on the
    other negative dividends. *)
Lemma quot_floor_nonneg (a b : Z) : 0 <= a -> 0 < b -> Z.quot a b = a / b.
Proof. intros Ha Hb. apply Z.quot_div_nonneg; lia. Qed.

Lemma quot_floor_exact (a b : Z) :
  0 < b -> Z.rem a b = 0 -> Z.quot a b = a / b.
Proof.
  intros Hb Hr.
  pose proof (Z.quot_rem' a b) as E. rewrite Hr in E.
  apply Z.div_unique with (r := 0); lia.
Qed.

Lemma quot_floor_neg (a b : Z) :
  a < 0 -> 0 < b -> Z.rem a b <> 0 -> Z.quot a b - 1 = a / b.
Proof.
  intros Ha Hb Hr.
  pose proof (Z.quot_rem' a b) as E.
  pose proof (Z.rem_nonpos a b ltac:(lia) ltac:(lia)) as B.
  pose proof (Z.rem_bound_abs a b ltac:(lia)) as B'.
  apply Z.div_unique with (r := Z.rem a b + b); lia.
Qed.

Lemma quot_bounds (a b : Z) : 0 < b -> Z.min a 0 <= Z.quot a b <= Z.max a 0.
Proof.
  intros Hb.
  destruct (Z.le_gt_cases 0 a) as [Ha | Ha].
  - rewrite quot_floor_nonneg by lia.
    pose proof (Z.div_pos a b Ha Hb).
    pose proof (Z.div_le_upper_bound a b a Hb ltac:(nia)). lia.
  - rewrite <- (Z.opp_involutive a) at 2 3.
    rewrite Z.quot_opp_l by lia.
    rewrite quot_floor_nonneg by lia.
    pose proof (Z.div_pos (- a) b ltac:(lia) Hb).
    pose proof (Z.div_le_upper_bound (- a) b (- a) Hb ltac:(nia)). lia.
Qed.

(** ** Sentinels *)

Lemma is_valid_spec (t : utctime) : is_valid t = true <-> t <> no_utctime.
Proof.
  unfold is_valid. rewrite negb_true_iff, Z.eqb_neq. reflexivity.
Qed.

(** C7.  [no_utctime] and [min_utctime] are the same instant, the smallest
    64-bit count: [min_utctime] is the negation of [utctime::min()] taken
    modulo 2^64, which is [utctime::min()] again; no 64-bit count is below
    it; and [is_valid t] is false exactly when [t] is that instant. *)
Theorem no_utctime_equals_min_utctime :
  no_utctime = min_utctime
  /\ (min_utctime - (- utctime_min)) mod 2 ^ 64 = 0
  /\ min_utctime = min_int64
  /\ (forall z, in_int64 z -> min_utctime <= z)
  /\ (forall t, is_valid t = false <-> t = min_utctime).
Proof.
  assert (E : min_utctime = min_int64) by reflexivity.
  split; [reflexivity |].
  split; [apply wrap64_congruent |].
  split; [exact E |].
  split.
  - intros z [Hz _]. rewrite E. exact Hz.
  - intros t. unfold is_valid. rewrite negb_false_iff, Z.eqb_eq.
    split; intros ->; reflexivity.
Qed.

(** ** floor *)

(** The test [0 < (num ^ den)] for a positive [den]: it holds when [num] is
    non-negative and differs from [den]. *)
Lemma lxor_test_positive (num den : Z) :
  0 < den -> (0 <? Z.lxor num den) = true -> 0 <= num.
Proof.
  intros Hd H. apply Z.ltb_lt in H.
  apply (proj1 (Z.lxor_nonneg num den)); lia.
Qed.

Lemma lxor_test_negative (num den : Z) :
  0 < den -> (0 <? Z.lxor num den) = false -> num < 0 \/ num = den.
Proof.
  intros Hd H. apply Z.ltb_ge in H.
  destruct (Z.eq_dec (Z.lxor num den) 0) as [E | E].
  - right. apply Z.lxor_eq. exact E.
  - left. destruct (Z.lt_ge_cases num 0) as [L | L]; [exact L | exfalso].
    assert (0 <= Z.lxor num den) by (apply Z.lxor_nonneg; lia). lia.
Qed.

(** On a positive span, [floor] is the floored quotient times the span,
    provided that product fits the 64-bit count. *)
Lemma floor_positive_span (t : utctime) (dt : utctimespan) :
  in_int64 t -> 0 < dt <= max_int64 -> min_int64 <= dt * (t / dt) ->
  floor t dt = dt * (t / dt).
Proof.
  intros Ht Hdt Hrep.
  assert (Hle : dt * (t / dt) <= t) by (apply Z.mul_div_le; lia).
  assert (Hq : in_int64 (Z.quot t dt)).
  { pose proof (quot_bounds t dt ltac:(lia)).
    int_range. }
  assert (Hr : in_int64 (dt * (t / dt))).
  { int_range. }
  unfold floor.
  destruct (dt =? 0) eqn:E0; [apply Z.eqb_eq in E0; lia |].
  destruct (0 <? Z.lxor t dt) eqn:Ex.
  - apply lxor_test_positive in Ex; [| lia].
    rewrite (wrap64_small _ Hq), quot_floor_nonneg by lia.
    apply wrap64_small, Hr.
  - rewrite (wrap64_small _ Hq).
    destruct (Z.rem t dt =? 0) eqn:Er; cbn [negb].
    + apply Z.eqb_eq in Er.
      rewrite quot_floor_exact by lia.
      apply wrap64_small, Hr.
    + apply Z.eqb_neq in Er.
      apply lxor_test_negative in Ex; [| lia].
      destruct Ex as [Hneg | ->].
      * rewrite quot_floor_neg by lia.
        assert (Hfd : in_int64 (t / dt)).
        { pose proof (quot_floor_neg t dt Hneg ltac:(lia) Er).
          assert (t <= t / dt) by (apply Z.div_le_lower_bound; nia).
          int_range. }
        rewrite (wrap64_small _ Hfd).
        apply wrap64_small, Hr.
      * exfalso. apply Er. apply Z.rem_same. lia.
Qed.

(** The product fits whenever [t] is not below half of the smallest count,
    which covers every instant of the years -9999 to 9999. *)
Lemma floor_multiple_representable (t : utctime) (dt : utctimespan) :
  - 2 ^ 62 <= t -> 0 < dt <= max_int64 -> min_int64 <= dt * (t / dt).
Proof.
  intros Ht Hdt.
  pose proof (Z.mul_succ_div_gt t dt ltac:(lia)) as U.
  destruct (Z.le_gt_cases (- dt) t) as [Near | Far].
  - assert (-1 <= t / dt) by (apply Z.div_le_lower_bound; lia).
    assert (- dt <= dt * (t / dt)) by nia.
    int_range.
  - int_range.
Qed.

(** C3 (amended).  For an instant [t] and a strictly positive span [dt] such
    that the greatest multiple of [dt] not exceeding [t] is itself a 64-bit
    count, [floor t dt] is that multiple: [floor t dt <= t < floor t dt + dt],
    [dt] divides [floor t dt], and no multiple of [dt] lies strictly between
    them.  For [dt = 0], [floor t dt = t].  [floor (-1us) 1s = -1000000us]
    and [floor (-1000000us) 1s = -1000000us]. *)
Theorem floor_greatest_multiple :
  (forall (t : utctime) (dt : utctimespan),
      in_int64 t -> 0 < dt <= max_int64 -> min_int64 <= dt * (t / dt) ->
      floor t dt <= t < floor t dt + dt
      /\ (dt | floor t dt)
      /\ (forall m, (dt | m) -> m <= t -> m <= floor t dt))
  /\ (forall t : utctime, floor t 0 = t)
  /\ floor (-1) calendar.SECOND = -1000000
  /\ floor (-1000000) calendar.SECOND = -1000000.
Proof.
  split; [| split; [| split]]; try reflexivity.
  intros t dt Ht Hdt Hrep.
  rewrite (floor_positive_span t dt Ht Hdt Hrep).
  pose proof (Z.mul_div_le t dt ltac:(lia)).
  pose proof (Z.mul_succ_div_gt t dt ltac:(lia)).
  split; [lia |].
  split; [exists (t / dt); lia |].
  intros m [k ->] Hm.
  assert (k <= t / dt) by (apply Z.div_le_lower_bound; lia).
  nia.
Qed.

(** Witness of [floor_greatest_multiple]: one microsecond before the epoch,
    floored to whole seconds. *)
Lemma floor_greatest_multiple_witness :
  floor (-1) 1000000 <= -1 < floor (-1) 1000000 + 1000000
  /\ (1000000 | floor (-1) 1000000).
Proof.
  destruct (proj1 floor_greatest_multiple (-1) 1000000) as (H1 & H2 & _).
  - int_range.
  - int_range.
  - vm_compute; discriminate.
  - split; [exact H1 | exact H2].
Defined.

(** C3, as stated, fails where the multiple below [t] is not a 64-bit count:
    one microsecond above the smallest count, floored to whole seconds, the
    product [den * (quot - 1)] wraps around to a value above [t]. *)
Lemma floor_wraps_near_min_counterexample :
  in_int64 (min_int64 + 1) /\ 0 < calendar.SECOND
  /\ ~ (floor (min_int64 + 1) calendar.SECOND <= min_int64 + 1).
Proof.
  split; [int_range |].
  split; [reflexivity |].
  vm_compute. intros H; apply H; reflexivity.
Qed.

(** ** Periods *)

Lemma valid_spec (p : utcperiod) :
  Period.valid p = true
  <-> start p <> no_utctime /\ end_ p <> no_utctime /\ start p <= end_ p.
Proof.
  unfold Period.valid.
  rewrite !andb_true_iff, !negb_true_iff, !Z.eqb_neq, Z.leb_le. tauto.
Qed.

Lemma overlaps_spec (a b : utcperiod) :
  Period.overlaps a b = true <-> ~ (start b >= end_ a \/ end_ b <= start a).
Proof.
  unfold Period.overlaps. rewrite Z.geb_leb.
  destruct (end_ a <=? start b) eqn:E1; destruct (end_ b <=? start a) eqn:E2;
    cbn [orb]; rewrite ?Z.leb_le, ?Z.leb_gt in E1, E2;
    split; intros H; try discriminate; try reflexivity; lia.
Qed.

(** C4 (amended).  For a period whose start is a 64-bit count, [contains t]
    holds if and only if the start is not [no_utctime] and
    [start <= t < end]. *)
Theorem contains_half_open (p : utcperiod) (t : utctime) :
  in_int64 (start p) ->
  (Period.contains p t = true
   <-> start p <> no_utctime /\ start p <= t < end_ p).
Proof.
  intros [Hlo _].
  unfold Period.contains.
  destruct (is_valid t && Period.valid p) eqn:E.
  - apply andb_true_iff in E. destruct E as [Et Ep].
    apply is_valid_spec in Et. apply valid_spec in Ep.
    rewrite andb_true_iff, Z.geb_le, Z.ltb_lt. tauto.
  - split; [discriminate |].
    intros (Hs & H1 & H2). exfalso.
    apply andb_false_iff in E.
    assert (Hmin : no_utctime = min_int64) by reflexivity.
    destruct E as [E | E].
    + unfold is_valid in E. rewrite negb_false_iff, Z.eqb_eq in E. lia.
    + assert (V : Period.valid p = true) by (apply valid_spec; lia).
      congruence.
Qed.

(** Witness of [contains_half_open]: the first ten microseconds of the epoch
    contain the fifth. *)
Lemma contains_half_open_witness :
  in_int64 0 /\ Period.contains (mk_utcperiod 0 10) 5 = true.
Proof.
  assert (H : in_int64 (start (mk_utcperiod 0 10)))
    by (simpl; int_range).
  split; [exact H |].
  apply (proj2 (contains_half_open (mk_utcperiod 0 10) 5 H)).
  simpl. split; [discriminate | lia].
Defined.

(** C4, as stated, fails for a period that starts at [no_utctime]: the
    instant lies between the endpoints and [contains] is false. *)
Lemma contains_invalid_period_counterexample :
  let p := mk_utcperiod no_utctime 10 in
  start p <= 5 < end_ p /\ Period.contains p 5 = false.
Proof.
  split; [| reflexivity].
  simpl. unfold no_utctime, utctime_min, min_int64. lia.
Qed.

Lemma intersection_valid_iff (a b : utcperiod) :
  Period.valid a = true -> Period.valid b = true ->
  (Period.valid (intersection a b) = true
   <-> Z.max (start a) (start b) <= Z.min (end_ a) (end_ b)).
Proof.
  intros Va Vb. apply valid_spec in Va, Vb.
  unfold intersection.
  destruct (Z.max (start a) (start b) <=? Z.min (end_ a) (end_ b)) eqn:E.
  - apply Z.leb_le in E. rewrite valid_spec; simpl.
    split; [intros _; exact E | intros _].
    split; [| split; [| exact E]].
    + destruct (Z.max_spec (start a) (start b)) as [[_ ->] | [_ ->]]; tauto.
    + destruct (Z.min_spec (end_ a) (end_ b)) as [[_ ->] | [_ ->]]; tauto.
  - apply Z.leb_gt in E.
    split; [discriminate | lia].
Qed.

(** C5 (amended).  For valid periods [a] and [b], [intersection a b] is valid
    if and only if not ([b.start > a.end] or [b.end < a.start]); in that case
    it is the period from the later start to the earlier end; in particular
    it is valid when [a] and [b] overlap.  When it is not valid it is the
    default period, both endpoints [no_utctime]. *)
Theorem intersection_valid_iff_touch_or_overlap (a b : utcperiod) :
  Period.valid a = true -> Period.valid b = true ->
  (Period.valid (intersection a b) = true
   <-> ~ (start b > end_ a \/ end_ b < start a))
  /\ (Period.valid (intersection a b) = true ->
      intersection a b
      = mk_utcperiod (Z.max (start a) (start b)) (Z.min (end_ a) (end_ b)))
  /\ (Period.overlaps a b = true -> Period.valid (intersection a b) = true)
  /\ (Period.valid (intersection a b) = false ->
      Period.overlaps a b = false
      /\ intersection a b = mk_utcperiod no_utctime no_utctime).
Proof.
  intros Va Vb.
  pose proof (intersection_valid_iff a b Va Vb) as I.
  assert (Va' := proj1 (valid_spec a) Va).
  assert (Vb' := proj1 (valid_spec b) Vb).
  split; [rewrite I; lia |].
  split.
  { intros V. apply I in V. unfold intersection.
    apply Z.leb_le in V. rewrite V. reflexivity. }
  split; [intros Ov; apply I; apply overlaps_spec in Ov; lia |].
  intros V.
  assert (N : ~ Z.max (start a) (start b) <= Z.min (end_ a) (end_ b)).
  { intros L. apply I in L. congruence. }
  split.
  - destruct (Period.overlaps a b) eqn:Ov; [| reflexivity].
    exfalso. apply overlaps_spec in Ov. lia.
  - unfold intersection.
    destruct (Z.max (start a) (start b) <=? Z.min (end_ a) (end_ b)) eqn:E;
      [apply Z.leb_le in E; contradiction | reflexivity].
Qed.

(** Witness of [intersection_valid_iff_touch_or_overlap]: two overlapping
    periods. *)
Lemma intersection_valid_iff_touch_or_overlap_witness :
  Period.valid (mk_utcperiod 0 10) = true
  /\ Period.valid (mk_utcperiod 5 20) = true
  /\ Period.valid (intersection (mk_utcperiod 0 10) (mk_utcperiod 5 20)) = true.
Proof.
  split; [reflexivity |]. split; [reflexivity |].
  destruct (intersection_valid_iff_touch_or_overlap
              (mk_utcperiod 0 10) (mk_utcperiod 5 20) eq_refl eq_refl)
    as (_ & _ & H & _).
  apply H. reflexivity.
Defined.

(** C5, as stated, fails for two valid periods that touch: they do not
    overlap, and their intersection is a valid period of zero length, not the
    default period. *)
Lemma intersection_touching_counterexample :
  let a := mk_utcperiod 0 10 in
  let b := mk_utcperiod 10 20 in
  Period.valid a = true /\ Period.valid b = true
  /\ Period.overlaps a b = false
  /\ Period.valid (intersection a b) = true
  /\ intersection a b = mk_utcperiod 10 10.
Proof. repeat split. Qed.


(** ** Day number of an instant *)

Lemma to_seconds_count_DAY : calendar.to_seconds_count calendar.DAY = 86400.
Proof. reflexivity. Qed.

(** The sum [UnixSecond + seconds] never leaves the 64-bit range. *)
Lemma day_number_no_wrap (t : utctime) :
  in_int64 t ->
  calendar.day_number t
  = Z.quot (calendar.UnixSecond + Z.quot t 1000000) 86400.
Proof.
  intros Ht. unfold calendar.day_number, calendar.to_seconds_count.
  fold (calendar.to_seconds_count calendar.DAY). rewrite to_seconds_count_DAY.
  rewrite wrap64_small; [reflexivity |].
  pose proof (Z.quot_rem' t 1000000) as E.
  pose proof (Z.rem_bound_abs t 1000000 ltac:(lia)) as B.
  unfold calendar.UnixSecond, calendar.UnixDay.
  int_range.
Qed.

(** Where the code agrees with the floor of the spec.  For an instant [t]
    not earlier than [UnixSecond] seconds before the epoch, [day_number t] is
    the floor of [(UnixSecond + seconds) / 86400] where [seconds] is the
    microsecond count of [t] divided by 10^6 and rounded toward zero; when
    [t] is not negative, or is a whole number of seconds, that is the count
    rounded toward negative infinity as well. *)
Lemma day_number_truncates_seconds (t : utctime) :
  in_int64 t -> - calendar.UnixSecond * 1000000 <= t ->
  calendar.day_number t = (calendar.UnixSecond + Z.quot t 1000000) / 86400
  /\ (0 <= t \/ t mod 1000000 = 0 ->
      calendar.day_number t = (calendar.UnixSecond + t / 1000000) / 86400).
Proof.
  intros Ht Hlo.
  rewrite (day_number_no_wrap t Ht).
  assert (Hs : 0 <= calendar.UnixSecond + Z.quot t 1000000).
  { destruct (Z.le_gt_cases 0 t) as [P | N].
    - pose proof (quot_bounds t 1000000 ltac:(lia)).
      unfold calendar.UnixSecond, calendar.UnixDay. lia.
    - assert (- calendar.UnixSecond <= Z.quot t 1000000); [| lia].
      rewrite <- (Z.quot_mul (- calendar.UnixSecond) 1000000) by lia.
      apply Z.quot_le_mono; lia. }
  rewrite (quot_floor_nonneg _ 86400 Hs) by lia.
  split; [reflexivity |].
  intros [P | E].
  - rewrite quot_floor_nonneg by lia. reflexivity.
  - rewrite quot_floor_exact; [reflexivity | lia |].
    rewrite Z.rem_mod by lia.
    rewrite Z.abs_eq with (n := 1000000) by lia.
    assert (Z.abs t mod 1000000 = 0); [| lia].
    destruct (Z.abs_spec t) as [[_ ->] | [_ ->]]; [exact E |].
    apply Z.mod_divide; [lia |]. apply Z.divide_opp_r.
    apply Z.mod_divide; [lia | exact E].
Qed.

(** One second before the epoch is in the day before the epoch. *)
Example day_number_one_second_before_epoch :
  calendar.day_number (-1000000) = 2440587
  /\ calendar.day_number (-1000000)
     = (calendar.UnixSecond + (-1000000) / 1000000) / 86400.
Proof. split; reflexivity. Qed.

(** C2 fails on the code.  One microsecond before the epoch the seconds of
    the instant are rounded toward zero, to 0 and not to -1, and
    [day_number] is the day of the epoch, 2440588; the floor of
    [(UnixSecond + seconds) / 86400] with the seconds rounded toward negative
    infinity is the day before, 2440587.  The year that [utc_year] reports
    for this instant of 1969 is 1970. *)
Theorem day_number_one_microsecond_before_epoch :
  calendar.day_number (-1) <> (calendar.UnixSecond + (-1) / 1000000) / 86400
  /\ calendar.day_number (-1) = 2440588
  /\ (calendar.UnixSecond + (-1) / 1000000) / 86400 = 2440587
  /\ calendar.utc_year calendar.from_day_number (-1) = Returns 1970.
Proof. split; [discriminate | repeat split]. Qed.


(** ** Construction of calendar coordinates *)

Lemma YMDhms_is_null_spec (Y M D h m s : Z) :
  YMDhms.is_null (YMDhms.mk Y M D h m s) = true <-> all_zero Y M D h m s.
Proof.
  unfold YMDhms.is_null, all_zero; simpl.
  rewrite !andb_true_iff, !Z.eqb_eq. tauto.
Qed.

Lemma YMDhms_is_valid_coordinates_spec (Y M D h m s : Z) :
  YMDhms.is_valid_coordinates (YMDhms.mk Y M D h m s) = true
  <-> ymd_in_range Y M D h m s.
Proof.
  unfold YMDhms.is_valid_coordinates, ymd_in_range, time_of_day_in_range,
    YMDhms.YEAR_MIN, YMDhms.YEAR_MAX; simpl.
  rewrite negb_true_iff, !orb_false_iff, !Z.ltb_ge, !Z.gtb_ltb, !Z.ltb_ge.
  lia.
Qed.

Lemma YWdhms_is_null_spec (Y W wd h m s : Z) :
  YWdhms.is_null (YWdhms.mk Y W wd h m s) = true <-> all_zero Y W wd h m s.
Proof.
  unfold YWdhms.is_null, all_zero; simpl.
  rewrite !andb_true_iff, !Z.eqb_eq. tauto.
Qed.

Lemma YWdhms_is_valid_coordinates_spec (Y W wd h m s : Z) :
  YWdhms.is_valid_coordinates (YWdhms.mk Y W wd h m s) = true
  <-> ywd_in_range Y W wd h m s.
Proof.
  unfold YWdhms.is_valid_coordinates, ywd_in_range, time_of_day_in_range,
    YMDhms.YEAR_MIN, YMDhms.YEAR_MAX; simpl.
  rewrite negb_true_iff, !orb_false_iff, !Z.ltb_ge, !Z.gtb_ltb, !Z.ltb_ge.
  lia.
Qed.

(** A constructor that throws when its check fails and returns the value
    otherwise. *)
Lemma checked_constructor {A : Type} (ok : bool) (c : A) (msg : string)
    (P : Prop) :
  (ok = true <-> P) ->
  ((exists what, (if negb ok then Throws msg else Returns c) = Throws what)
   <-> ~ P)
  /\ ((if negb ok then Throws msg else Returns c) = Returns c <-> P).
Proof.
  intros V. destruct ok; cbn [negb]; split; split.
  - intros [what E]. discriminate E.
  - intros H. exfalso. apply H, V. reflexivity.
  - intros _. apply V. reflexivity.
  - reflexivity.
  - intros _ H. apply V in H. discriminate H.
  - intros _. exists msg. reflexivity.
  - discriminate.
  - intros H. apply V in H. discriminate H.
Qed.

(** C9.  The checking constructor of [YMDhms] throws if and only if the
    coordinates are neither all zero nor within year [-9999, 9999], month
    [1, 12], day [1, 31], hour [0, 23], minute and second [0, 59]; otherwise
    it returns the coordinates as given.  The same holds of [YWdhms], with
    iso_week [1, 53] and week_day [1, 7]. *)
Theorem constructors_throw_iff_out_of_range :
  (forall Y M D h m s : Z,
      ((exists what, YMDhms.make Y M D h m s = Throws what)
       <-> ~ (all_zero Y M D h m s \/ ymd_in_range Y M D h m s))
      /\ (YMDhms.make Y M D h m s = Returns (YMDhms.mk Y M D h m s)
          <-> all_zero Y M D h m s \/ ymd_in_range Y M D h m s))
  /\ (forall Y W wd h m s : Z,
         ((exists what, YWdhms.make Y W wd h m s = Throws what)
          <-> ~ (all_zero Y W wd h m s \/ ywd_in_range Y W wd h m s))
         /\ (YWdhms.make Y W wd h m s = Returns (YWdhms.mk Y W wd h m s)
             <-> all_zero Y W wd h m s \/ ywd_in_range Y W wd h m s)).
Proof.
  split.
  - intros Y M D h m s. unfold YMDhms.make.
    apply checked_constructor. unfold YMDhms.is_valid.
    rewrite orb_true_iff, YMDhms_is_null_spec,
      YMDhms_is_valid_coordinates_spec.
    reflexivity.
  - intros Y W wd h m s. unfold YWdhms.make.
    apply checked_constructor. unfold YWdhms.is_valid.
    rewrite orb_true_iff, YWdhms_is_null_spec,
      YWdhms_is_valid_coordinates_spec.
    reflexivity.
Qed.

(** The null values are those of the default constructors. *)
Lemma null_coordinates_construct :
  YMDhms.make 0 0 0 0 0 0 = Returns YMDhms.null
  /\ YWdhms.make 0 0 0 0 0 0 = Returns YWdhms.null.
Proof. split; reflexivity. Qed.

(** ** The time-zone table *)

Lemma is_dst_spec (tz : tz_table.t) :
  tz_table.is_dst tz = true <-> tz_table.dst tz <> [].
Proof.
  unfold tz_table.is_dst. rewrite Z.ltb_lt.
  destruct (tz_table.dst tz); simpl; split; intros H; try lia; congruence.
Qed.

(** Both constructors without a rule provider leave the table empty. *)
Lemma constructed_tables_are_empty :
  tz_table.dst tz_table.default = []
  /\ forall dt : utctimespan, tz_table.dst (tz_table.of_offset dt) = [].
Proof. split; reflexivity. Qed.

(** C10.  For a table whose [dst] vector is empty, [is_dst] is false and
    [dst_start y] and [dst_end y] return [no_utctime] for every year [y];
    nothing is thrown and no element is read. *)
Theorem empty_table_dst_start_end_none (tz : tz_table.t) (y : Z) :
  tz_table.dst tz = [] ->
  tz_table.is_dst tz = false
  /\ tz_table.dst_start tz y = Returns no_utctime
  /\ tz_table.dst_end tz y = Returns no_utctime.
Proof.
  intros E.
  assert (D : tz_table.is_dst tz = false).
  { unfold tz_table.is_dst. rewrite E. reflexivity. }
  unfold tz_table.dst_start, tz_table.dst_end. rewrite D.
  repeat split.
Qed.

(** Witness of [empty_table_dst_start_end_none]: the table of the fixed
    offset of one hour, asked for the year 2016. *)
Lemma empty_table_dst_start_end_none_witness :
  tz_table.dst (tz_table.of_offset (deltahours 1)) = []
  /\ tz_table.dst_start (tz_table.of_offset (deltahours 1)) 2016
     = Returns no_utctime.
Proof.
  split; [reflexivity |].
  apply (empty_table_dst_start_end_none
           (tz_table.of_offset (deltahours 1)) 2016 eq_refl).
Defined.

Section DstOffsetProperties.

Variable from_day_number : Z -> outcome YMDhms.t.

Lemma dst_offset_empty_table (tz : tz_table.t) (t : utctime) :
  tz_table.dst tz = [] ->
  tz_table.dst_offset from_day_number tz t = Returns 0.
Proof.
  intros E. unfold tz_table.dst_offset, tz_table.is_dst.
  rewrite E. reflexivity.
Qed.

(** Years at or after the end of the table: the guard returns zero. *)
Lemma dst_offset_after_table (tz : tz_table.t) (t : utctime) (y : Z) :
  calendar.utc_year from_day_number t = Returns y ->
  Z.of_nat (List.length (tz_table.dst tz)) <= max_int32 ->
  Z.of_nat (List.length (tz_table.dst tz)) <= y - tz_table.start_year tz
    <= max_int32 ->
  tz_table.dst_offset from_day_number tz t = Returns 0.
Proof.
  intros Hy Hlen Hidx. unfold tz_table.dst_offset.
  destruct (tz_table.is_dst tz); cbn [negb]; [| reflexivity].
  rewrite Hy; cbn [bind].
  rewrite !wrap32_small
    by int_range.
  rewrite (proj2 (Z.geb_le _ _)) by lia.
  reflexivity.
Qed.

(** C1 fails on the code.  For a table with at least one year and an instant
    whose UTC year lies before [start_year], the guard
    [year - start_year >= (int) dst.size()] does not fire, and [dst_start]
    reads [dst] at a negative subscript: outside the vector. *)
Theorem dst_offset_before_start_year_out_of_bounds
    (tz : tz_table.t) (t : utctime) (y : Z) :
  tz_table.dst tz <> [] ->
  Z.of_nat (List.length (tz_table.dst tz)) <= max_int32 ->
  calendar.utc_year from_day_number t = Returns y ->
  min_int32 <= y - tz_table.start_year tz < 0 ->
  tz_table.dst_offset from_day_number tz t = OutOfBounds.
Proof.
  intros Hne Hlen Hy Hidx. unfold tz_table.dst_offset.
  rewrite (proj2 (is_dst_spec tz) Hne); cbn [negb].
  rewrite Hy; cbn [bind].
  assert (L : 0 < Z.of_nat (List.length (tz_table.dst tz))).
  { destruct (tz_table.dst tz); [congruence | simpl; lia]. }
  rewrite !wrap32_small
    by int_range.
  destruct (y - tz_table.start_year tz
            >=? Z.of_nat (List.length (tz_table.dst tz))) eqn:G.
  { apply Z.geb_le in G. lia. }
  unfold tz_table.dst_start. rewrite (proj2 (is_dst_spec tz) Hne).
  unfold tz_table.index, vector_at, to_uint64.
  rewrite wrap32_small
    by int_range.
  assert (B : 2 ^ 64 - 2 ^ 31 <= (y - tz_table.start_year tz) mod 2 ^ 64).
  { replace (y - tz_table.start_year tz)
      with (y - tz_table.start_year tz + 2 ^ 64 + (-1) * 2 ^ 64) by lia.
    rewrite Z.mod_add by lia.
    rewrite Z.mod_small; unfold min_int32 in *; lia. }
  destruct ((y - tz_table.start_year tz) mod 2 ^ 64
            <? Z.of_nat (List.length (tz_table.dst tz))) eqn:I.
  { apply Z.ltb_lt in I. unfold max_int32 in *. lia. }
  rewrite andb_false_r. reflexivity.
Qed.

(** C8 fails on the code.  [min_utctime] is the same instant as
    [no_utctime], so the first test of [utc_year] throws for it and the
    branch that returns [YEAR_MIN] is never taken. *)
Theorem utc_year_of_min_utctime_throws :
  calendar.utc_year from_day_number min_utctime
  = Throws "year of no_utctime"%string.
Proof. reflexivity. Qed.

Lemma utc_year_of_no_utctime_throws :
  calendar.utc_year from_day_number no_utctime
  = Throws "year of no_utctime"%string.
Proof. reflexivity. Qed.

Lemma utc_year_of_max_utctime :
  calendar.utc_year from_day_number max_utctime = Returns 9999.
Proof. reflexivity. Qed.

(** [utc_year] returns [YEAR_MIN] only if [from_day_number] does. *)
Lemma utc_year_min_branch_unreachable (t : utctime) :
  calendar.utc_year from_day_number t = Returns YMDhms.YEAR_MIN ->
  exists c, from_day_number (to_uint64 (calendar.day_number t)) = Returns c
            /\ YMDhms.year c = YMDhms.YEAR_MIN.
Proof.
  unfold calendar.utc_year.
  destruct (t =? no_utctime) eqn:E1; [discriminate |].
  destruct (t =? max_utctime) eqn:E2; [discriminate |].
  replace (t =? min_utctime) with false by (symmetry; exact E1).
  destruct (from_day_number (to_uint64 (calendar.day_number t))) as [c | |];
    try discriminate.
  cbn [bind]. intros H. exists c. split; [reflexivity | congruence].
Qed.

End DstOffsetProperties.

(** Witness of [dst_offset_before_start_year_out_of_bounds]: the epoch, in
    the year 1970, looked up in a table whose first year is 2016. *)
Lemma dst_offset_before_start_year_out_of_bounds_witness :
  calendar.utc_year calendar.from_day_number 0 = Returns 1970
  /\ tz_table.dst_offset calendar.from_day_number oslo_2016 0 = OutOfBounds.
Proof.
  assert (Y : calendar.utc_year calendar.from_day_number 0 = Returns 1970)
    by reflexivity.
  split; [exact Y |].
  apply (dst_offset_before_start_year_out_of_bounds
           calendar.from_day_number oslo_2016 0 1970).
  - discriminate.
  - vm_compute. discriminate.
  - exact Y.
  - vm_compute. split; [discriminate | reflexivity].
Defined.

(** The table on its intended path: inside the year it covers the offset is
    that of the summer period or zero, and after its last year it is zero. *)
Example dst_offset_oslo_2016 :
  (* 2016-07-01T00:00:00Z *)
  tz_table.dst_offset calendar.from_day_number oslo_2016 1467331200000000
  = Returns 3600000000
  (* 2016-01-01T00:00:00Z *)
  /\ tz_table.dst_offset calendar.from_day_number oslo_2016 1451606400000000
     = Returns 0
  (* 2017-07-01T00:00:00Z *)
  /\ tz_table.dst_offset calendar.from_day_number oslo_2016 1498867200000000
     = Returns 0.
Proof. repeat split. Qed.

(** ** The name of a fixed-offset table *)

(** The conversion [%+02d] of a one-digit number is the sign and the digit:
    the sign fills one of the two columns of the field. *)
Lemma format_plus_0_2_one_digit (n : Z) :
  -10 < n < 10 ->
  String.length (Printf.format_d true true 2 n) = 2%nat.
Proof.
  intros H.
  replace n with (Z.of_nat (Z.to_nat (n + 9)) - 9) by lia.
  assert (K : (Z.to_nat (n + 9) < 19)%nat) by lia.
  revert K. generalize (Z.to_nat (n + 9)) as k. intros k K.
  do 19 (destruct k as [| k]; [reflexivity |]).
  lia.
Qed.

Lemma length_append (s1 s2 : string) :
  String.length (append s1 s2) = (String.length s1 + String.length s2)%nat.
Proof.
  induction s1 as [| c s1 IH]; simpl; [reflexivity | rewrite IH; reflexivity].
Qed.

(** Below ten hours in either direction, the name has five characters:
    UTC, a sign and one digit. *)
Lemma fixed_offset_name_one_hour_digit (dt : utctimespan) :
  -10 * calendar.HOUR < dt < 10 * calendar.HOUR ->
  String.length (tz_table.name (tz_table.of_offset dt)) = 5%nat.
Proof.
  intros H. unfold tz_table.name, tz_table.of_offset.
  cbn [tz_table.tz_name].
  change (deltahours 1) with 3600000000.
  change calendar.HOUR with 3600000000 in H.
  assert (Q : -10 < Z.quot dt 3600000000 < 10).
  { pose proof (Z.quot_rem' dt 3600000000) as E.
    pose proof (Z.rem_bound_abs dt 3600000000 ltac:(lia)) as B.
    destruct (Z.le_gt_cases 0 dt) as [P | N].
    - pose proof (Z.rem_nonneg dt 3600000000 ltac:(lia) P). lia.
    - pose proof (Z.rem_nonpos dt 3600000000 ltac:(lia) ltac:(lia)). lia. }
  rewrite wrap32_small
    by int_range.
  rewrite length_append, (format_plus_0_2_one_digit _ Q). reflexivity.
Qed.

(** C6 fails on the code.  The table of the fixed offset +5h30m has an empty
    [dst] vector, and its name is UTC+5: one hour digit, not two.  The table
    of the zero offset is named UTC+0, the default table UTC+00. *)
Theorem fixed_offset_name_not_zero_padded :
  tz_table.dst (tz_table.of_offset (deltahours 5 + deltaminutes 30)) = []
  /\ tz_table.name (tz_table.of_offset (deltahours 5 + deltaminutes 30))
     = "UTC+5"%string
  /\ tz_table.name (tz_table.of_offset 0) = "UTC+0"%string
  /\ tz_table.name tz_table.default = "UTC+00"%string.
Proof. repeat split. Qed.


(** * Further properties of the header *)

(** ** floor, for spans of either sign *)

Lemma wrap64_congruence (x y : Z) :
  (x - y) mod 2 ^ 64 = 0 -> wrap64 x = wrap64 y.
Proof.
  intros H. unfold wrap64. f_equal.
  apply Z.mod_divide in H; [| lia]. destruct H as [k H].
  replace (x + 2 ^ 63) with (y + 2 ^ 63 + k * 2 ^ 64) by lia.
  apply Z.mod_add. lia.
Qed.

(** A product of wrapped factors wraps to the same count as the product. *)
Lemma wrap64_mul_wrap_r (a b : Z) : wrap64 (a * wrap64 b) = wrap64 (a * b).
Proof.
  apply wrap64_congruence.
  pose proof (wrap64_congruent b) as H.
  apply Z.mod_divide in H; [| lia]. destruct H as [k H].
  apply Z.mod_divide; [lia |]. exists (a * k). nia.
Qed.

Lemma wrap64_mul_pred_wrap (a b : Z) :
  wrap64 (a * wrap64 (wrap64 b - 1)) = wrap64 (a * (b - 1)).
Proof.
  rewrite wrap64_mul_wrap_r. apply wrap64_congruence.
  pose proof (wrap64_congruent b) as H.
  apply Z.mod_divide in H; [| lia]. destruct H as [k H].
  apply Z.mod_divide; [lia |]. exists (a * k). nia.
Qed.

(** The truncated quotient against the floored one, for a divisor of either
    sign. *)
Lemma quot_floor_same_sign (a b : Z) :
  b <> 0 -> (0 <= a <-> 0 <= b) -> Z.quot a b = a / b.
Proof.
  intros Hb Hs.
  destruct (Z.lt_ge_cases 0 b) as [P | N].
  - apply quot_floor_nonneg; lia.
  - rewrite <- (Z.quot_opp_opp a b) by lia.
    rewrite <- (Z.div_opp_opp a b) by lia.
    apply quot_floor_nonneg; lia.
Qed.

Lemma quot_floor_exact_any (a b : Z) :
  b <> 0 -> Z.rem a b = 0 -> Z.quot a b = a / b.
Proof.
  intros Hb Hr.
  pose proof (Z.quot_rem' a b) as E. rewrite Hr in E.
  apply Z.div_unique with (r := 0); lia.
Qed.

Lemma quot_floor_opposite_sign (a b : Z) :
  b <> 0 -> ~ (0 <= a <-> 0 <= b) -> Z.rem a b <> 0 ->
  Z.quot a b - 1 = a / b.
Proof.
  intros Hb Hs Hr.
  destruct (Z.lt_ge_cases 0 b) as [P | N].
  - apply quot_floor_neg; lia.
  - pose proof (Z.quot_rem' a b) as E.
    pose proof (Z.rem_nonneg a b Hb ltac:(lia)) as B.
    pose proof (Z.rem_bound_abs a b Hb) as B'.
    apply Z.div_unique with (r := Z.rem a b + b); lia.
Qed.

(** Whatever the operands, [floor] is the floored quotient times the span,
    as a 64-bit count. *)
Lemma floor_as_wrapped_product (t : utctime) (dt : utctimespan) :
  dt <> 0 -> floor t dt = wrap64 (dt * (t / dt)).
Proof.
  intros Hdt. unfold floor.
  destruct (dt =? 0) eqn:E0; [apply Z.eqb_eq in E0; contradiction |].
  destruct (0 <? Z.lxor t dt) eqn:Ex.
  - apply Z.ltb_lt in Ex.
    rewrite wrap64_mul_wrap_r, quot_floor_same_sign; [reflexivity | exact Hdt |].
    apply Z.lxor_nonneg. lia.
  - apply Z.ltb_ge in Ex.
    destruct (Z.rem t dt =? 0) eqn:Er; cbn [negb].
    + apply Z.eqb_eq in Er.
      rewrite wrap64_mul_wrap_r, quot_floor_exact_any by assumption.
      reflexivity.
    + apply Z.eqb_neq in Er.
      rewrite wrap64_mul_pred_wrap.
      rewrite quot_floor_opposite_sign; [reflexivity | exact Hdt | | exact Er].
      intros Hs. apply Z.lxor_nonneg in Hs.
      assert (Z.lxor t dt = 0) as Hx by lia.
      apply Z.lxor_eq in Hx. subst t.
      apply Er. apply Z.rem_same. exact Hdt.
Qed.





(** X3.  [floor] is monotone in the instant, for a positive span, as long as
    both results fit the 64-bit count. *)
Theorem floor_monotone (t1 t2 : utctime) (dt : utctimespan) :
  0 < dt -> in_int64 (dt * (t1 / dt)) -> in_int64 (dt * (t2 / dt)) ->
  t1 <= t2 -> floor t1 dt <= floor t2 dt.
Proof.
  intros Hdt H1 H2 Hle.
  rewrite !floor_as_wrapped_product by lia.
  rewrite (wrap64_small _ H1), (wrap64_small _ H2).
  apply Z.mul_le_mono_nonneg_l; [lia |].
  apply Z.div_le_mono; lia.
Qed.

(** Witness of [floor_monotone]. *)
Lemma floor_monotone_witness :
  floor (-1) 1000000 <= floor 1 1000000.
Proof.
  apply floor_monotone; try lia; vm_compute; split; discriminate.
Defined.

(** X4.  For a positive span and 64-bit operands, [floor t dt] returns [t]
    itself exactly when [dt] divides [t]; no wrap-around can make an instant
    off the grid look like a fixed point. *)
Theorem floor_fixed_point_iff_divides (t : utctime) (dt : utctimespan) :
  in_int64 t -> 0 < dt <= max_int64 ->
  (floor t dt = t <-> (dt | t)).
Proof.
  intros Ht Hdt.
  rewrite floor_as_wrapped_product by lia.
  pose proof (Z.mul_div_le t dt ltac:(lia)) as Lo.
  pose proof (Z.mul_succ_div_gt t dt ltac:(lia)) as Hi.
  split.
  - intros E.
    pose proof (wrap64_congruent (dt * (t / dt))) as C.
    rewrite E in C.
    rewrite Z.mod_small in C by int_range.
    exists (t / dt). lia.
  - intros [k ->].
    rewrite Z.div_mul by lia. rewrite (Z.mul_comm dt k).
    apply wrap64_small, Ht.
Qed.

(** Witness of [floor_fixed_point_iff_divides]. *)
Lemma floor_fixed_point_iff_divides_witness :
  floor (-1000000) 1000000 = -1000000.
Proof.
  apply (proj2 (floor_fixed_point_iff_divides (-1000000) 1000000
                  ltac:(int_range) ltac:(int_range))).
  exists (-1). reflexivity.
Defined.

(** ** The algebra of periods *)

(** Case analysis on every comparison of a goal about periods. *)
Ltac period_cases :=
  repeat match goal with
         | |- context [Z.leb ?x ?y] => destruct (Z.leb_spec x y)
         | |- context [Z.ltb ?x ?y] => destruct (Z.ltb_spec x y)
         | |- context [Z.eqb ?x ?y] => destruct (Z.eqb_spec x y)
         end.

Ltac period_unfold :=
  unfold Period.contains, Period.contains_period, Period.overlaps,
    Period.valid, is_valid, intersection, utcperiod_default, period_in_range,
    in_int64 in *;
  change no_utctime with min_int64 in *;
  rewrite ?Z.geb_leb in *; cbn [start end_] in *.

(** X5.  [overlaps] is symmetric. *)
Theorem overlaps_symmetric (a b : utcperiod) :
  Period.overlaps a b = Period.overlaps b a.
Proof.
  destruct a as [sa ea], b as [sb eb]. period_unfold.
  period_cases; cbn; try reflexivity; lia.
Qed.

(** X6.  [intersection] is commutative. *)
Theorem intersection_commutative (a b : utcperiod) :
  intersection a b = intersection b a.
Proof.
  unfold intersection.
  rewrite (Z.max_comm (start b)), (Z.min_comm (end_ b)). reflexivity.
Qed.

Lemma intersection_default_r (a : utcperiod) :
  in_int64 (end_ a) -> intersection a utcperiod_default = utcperiod_default.
Proof.
  destruct a as [sa ea]. intros H. period_unfold.
  period_cases; [f_equal; lia | reflexivity].
Qed.

Lemma intersection_default_l (a : utcperiod) :
  in_int64 (end_ a) -> intersection utcperiod_default a = utcperiod_default.
Proof.
  destruct a as [sa ea]. intros H. period_unfold.
  period_cases; [f_equal; lia | reflexivity].
Qed.

(** X7.  [intersection] is associative on periods whose endpoints are 64-bit
    counts; the default period absorbs. *)
Theorem intersection_associative (a b c : utcperiod) :
  period_in_range a -> period_in_range b -> period_in_range c ->
  intersection (intersection a b) c = intersection a (intersection b c).
Proof.
  destruct a as [sa ea], b as [sb eb], c as [sc ec].
  intros [_ Ha] [_ Hb] [_ Hc]. cbn [start end_] in *.
  unfold intersection at 2 4. cbn [start end_].
  destruct (Z.leb_spec (Z.max sa sb) (Z.min ea eb)) as [L1 | L1];
    destruct (Z.leb_spec (Z.max sb sc) (Z.min eb ec)) as [L2 | L2].
  - unfold intersection; cbn [start end_].
    rewrite Z.max_assoc, Z.min_assoc. reflexivity.
  - rewrite intersection_default_r by exact Ha.
    unfold intersection; cbn [start end_].
    destruct (Z.leb_spec (Z.max (Z.max sa sb) sc) (Z.min (Z.min ea eb) ec));
      [lia | reflexivity].
  - rewrite intersection_default_l by exact Hc.
    unfold intersection; cbn [start end_].
    destruct (Z.leb_spec (Z.max sa (Z.max sb sc)) (Z.min ea (Z.min eb ec)));
      [lia | reflexivity].
  - rewrite intersection_default_r by exact Ha.
    rewrite intersection_default_l by exact Hc.
    reflexivity.
Qed.

(** Witness of [intersection_associative]. *)
Lemma intersection_associative_witness :
  intersection (intersection (mk_utcperiod 0 10) (mk_utcperiod 5 20))
    (mk_utcperiod 7 30)
  = intersection (mk_utcperiod 0 10)
      (intersection (mk_utcperiod 5 20) (mk_utcperiod 7 30)).
Proof.
  apply intersection_associative; split; cbn; int_range.
Defined.

(** X8.  Among valid periods, [intersection a b] is the greatest period
    inside both: a period lies within [a] and within [b] if and only if it
    lies within their intersection. *)
Theorem intersection_greatest_lower_bound (a b c : utcperiod) :
  Period.valid a = true -> Period.valid b = true ->
  (Period.contains_period (intersection a b) c = true
   <-> Period.contains_period a c = true
       /\ Period.contains_period b c = true).
Proof.
  destruct a as [sa ea], b as [sb eb], c as [sc ec].
  intros Va Vb. apply valid_spec in Va, Vb. cbn [start end_] in *.
  assert (N : no_utctime = min_int64) by reflexivity.
  unfold intersection; cbn [start end_].
  destruct (Z.leb_spec (Z.max sa sb) (Z.min ea eb)) as [L | L].
  - unfold Period.contains_period.
    rewrite !andb_true_iff, !valid_spec, !Z.geb_le, !Z.leb_le.
    cbn [start end_]. lia.
  - unfold Period.contains_period.
    rewrite !andb_true_iff, !valid_spec, !Z.geb_le, !Z.leb_le.
    unfold utcperiod_default. cbn [start end_]. lia.
Qed.

(** Witness of [intersection_greatest_lower_bound]. *)
Lemma intersection_greatest_lower_bound_witness :
  Period.contains_period
    (intersection (mk_utcperiod 0 10) (mk_utcperiod 5 20))
    (mk_utcperiod 6 8) = true.
Proof.
  apply (proj2 (intersection_greatest_lower_bound
                  (mk_utcperiod 0 10) (mk_utcperiod 5 20) (mk_utcperiod 6 8)
                  eq_refl eq_refl)).
  split; reflexivity.
Defined.

(** X9.  Containment composes: an instant of a period that lies within [a]
    is an instant of [a]. *)
Theorem contains_period_then_contains (a p : utcperiod) (t : utctime) :
  Period.contains_period a p = true -> Period.contains p t = true ->
  Period.contains a t = true.
Proof.
  unfold Period.contains_period, Period.contains.
  rewrite !andb_true_iff, !Z.geb_le, Z.leb_le.
  intros [[[Va Vp] S] E].
  rewrite Va, Vp, !andb_true_r.
  destruct (is_valid t); [| discriminate].
  rewrite !andb_true_iff, !Z.geb_le, !Z.ltb_lt. lia.
Qed.

(** Witness of [contains_period_then_contains]. *)
Lemma contains_period_then_contains_witness :
  Period.contains (mk_utcperiod 0 10) 6 = true.
Proof.
  apply (contains_period_then_contains
           (mk_utcperiod 0 10) (mk_utcperiod 5 8) 6); reflexivity.
Defined.

(** X10.  For valid periods, the instants of [intersection a b] are the
    instants that [a] and [b] both contain. *)
Theorem contains_intersection (a b : utcperiod) (t : utctime) :
  Period.valid a = true -> Period.valid b = true ->
  Period.contains (intersection a b) t
  = Period.contains a t && Period.contains b t.
Proof.
  destruct a as [sa ea], b as [sb eb].
  intros Va Vb. unfold Period.contains. rewrite Va, Vb, !andb_true_r.
  apply valid_spec in Va, Vb. cbn [start end_] in *.
  assert (N : no_utctime = min_int64) by reflexivity.
  destruct (is_valid t) eqn:Vt; cbn [andb].
  2:{ reflexivity. }
  unfold intersection; cbn [start end_].
  destruct (Z.leb_spec (Z.max sa sb) (Z.min ea eb)) as [L | L].
  - assert (V : Period.valid
                  (mk_utcperiod (Z.max sa sb) (Z.min ea eb)) = true).
    { apply valid_spec. cbn [start end_]. lia. }
    rewrite V. cbn [start end_]. rewrite !Z.geb_leb.
    period_cases; cbn; try reflexivity; lia.
  - cbn. rewrite !Z.geb_leb.
    period_cases; cbn; try reflexivity; lia.
Qed.

(** Witness of [contains_intersection]. *)
Lemma contains_intersection_witness :
  Period.contains (intersection (mk_utcperiod 0 10) (mk_utcperiod 5 20)) 7
  = Period.contains (mk_utcperiod 0 10) 7
    && Period.contains (mk_utcperiod 5 20) 7.
Proof.
  apply contains_intersection; reflexivity.
Defined.

(** X11.  Two valid periods of positive length overlap if and only if some
    instant is contained in both. *)
Theorem overlaps_iff_common_instant (a b : utcperiod) :
  Period.valid a = true -> Period.valid b = true ->
  start a < end_ a -> start b < end_ b ->
  (Period.overlaps a b = true
   <-> exists t, Period.contains a t = true /\ Period.contains b t = true).
Proof.
  intros Va Vb La Lb.
  rewrite overlaps_spec.
  assert (Va' := proj1 (valid_spec a) Va).
  assert (Vb' := proj1 (valid_spec b) Vb).
  assert (N : no_utctime = min_int64) by reflexivity.
  assert (C : forall p t, Period.valid p = true -> is_valid t = true ->
              (Period.contains p t = true <-> start p <= t < end_ p)).
  { intros p t Vp Vt. unfold Period.contains. rewrite Vt, Vp. cbn [andb].
    rewrite andb_true_iff, Z.geb_le, Z.ltb_lt. reflexivity. }
  split.
  - intros O. exists (Z.max (start a) (start b)).
    assert (Vt : is_valid (Z.max (start a) (start b)) = true).
    { apply is_valid_spec.
      destruct (Z.max_spec (start a) (start b)) as [[_ ->] | [_ ->]]; tauto. }
    rewrite !C by assumption. lia.
  - intros [t [Ca Cb]].
    assert (Vt : is_valid t = true).
    { unfold Period.contains in Ca. destruct (is_valid t);
        [reflexivity | discriminate]. }
    rewrite C in Ca, Cb by assumption. lia.
Qed.

(** Witness of [overlaps_iff_common_instant]. *)
Lemma overlaps_iff_common_instant_witness :
  exists t, Period.contains (mk_utcperiod 0 10) t = true
            /\ Period.contains (mk_utcperiod 5 20) t = true.
Proof.
  apply (proj1 (overlaps_iff_common_instant
                  (mk_utcperiod 0 10) (mk_utcperiod 5 20)
                  eq_refl eq_refl ltac:(cbn; lia) ltac:(cbn; lia))).
  reflexivity.
Defined.

(** ** Time of day and day number *)

(** For [int] arguments no sum or product of [hms_seconds] leaves the 64-bit
    range. *)
Lemma hms_seconds_unwrapped (h m s : Z) :
  in_int32 h -> in_int32 m -> in_int32 s ->
  calendar.hms_seconds h m s = h * 3600000000 + m * 60000000 + s * 1000000.
Proof.
  intros Hh Hm Hs.
  unfold calendar.hms_seconds, deltahours, deltaminutes.
  rewrite (wrap64_small (h * 3600000000)) by int_range.
  rewrite (wrap64_small (m * 60000000)) by int_range.
  rewrite (wrap64_small (s * 1000000)) by int_range.
  rewrite (wrap64_small (h * 3600000000 + m * 60000000)) by int_range.
  apply wrap64_small. int_range.
Qed.

(** X12.  For [int] arguments [hms_seconds] never overflows the microsecond
    count: it is exactly [h] hours, [m] minutes and [s] seconds. *)
Theorem hms_seconds_exact (h m s : Z) :
  in_int32 h -> in_int32 m -> in_int32 s ->
  calendar.hms_seconds h m s
  = h * calendar.HOUR + m * calendar.MINUTE + s * calendar.SECOND.
Proof.
  intros Hh Hm Hs.
  rewrite hms_seconds_unwrapped by assumption.
  change calendar.HOUR with 3600000000.
  change calendar.MINUTE with 60000000.
  change calendar.SECOND with 1000000.
  reflexivity.
Qed.

(** Witness of [hms_seconds_exact]. *)
Lemma hms_seconds_exact_witness :
  calendar.hms_seconds 23 59 59 = 86399000000.
Proof.
  rewrite (hms_seconds_exact 23 59 59) by int_range. reflexivity.
Defined.

(** X13.  A time of day within the documented ranges is a span of less than
    one [DAY], and the hour, minute and second are read back from it by
    division. *)
Theorem hms_seconds_round_trip (h m s : Z) :
  time_of_day_in_range h m s ->
  let v := calendar.hms_seconds h m s in
  0 <= v < calendar.DAY
  /\ v / calendar.HOUR = h
  /\ (v mod calendar.HOUR) / calendar.MINUTE = m
  /\ (v mod calendar.MINUTE) / calendar.SECOND = s.
Proof.
  intros (Hh & Hm & Hs) v. subst v.
  rewrite hms_seconds_unwrapped by int_range.
  change calendar.DAY with 86400000000.
  change calendar.HOUR with 3600000000.
  change calendar.MINUTE with 60000000.
  change calendar.SECOND with 1000000.
  split; [lia |].
  split; [symmetry; apply Z.div_unique with
                      (r := m * 60000000 + s * 1000000); lia |].
  assert (E1 : (h * 3600000000 + m * 60000000 + s * 1000000) mod 3600000000
               = m * 60000000 + s * 1000000).
  { symmetry. apply Z.mod_unique with (q := h); lia. }
  assert (E2 : (h * 3600000000 + m * 60000000 + s * 1000000) mod 60000000
               = s * 1000000).
  { symmetry. apply Z.mod_unique with (q := h * 60 + m); lia. }
  rewrite E1, E2.
  split; symmetry.
  - apply Z.div_unique with (r := s * 1000000); lia.
  - apply Z.div_unique with (r := 0); lia.
Qed.

(** Witness of [hms_seconds_round_trip]. *)
Lemma hms_seconds_round_trip_witness :
  calendar.hms_seconds 23 59 59 / calendar.HOUR = 23.
Proof.
  assert (R : time_of_day_in_range 23 59 59)
    by (unfold time_of_day_in_range; lia).
  exact (proj1 (proj2 (hms_seconds_round_trip 23 59 59 R))).
Defined.

(** X14.  [day_number] never decreases as the instant advances. *)
Theorem day_number_monotone (t1 t2 : utctime) :
  in_int64 t1 -> in_int64 t2 -> t1 <= t2 ->
  calendar.day_number t1 <= calendar.day_number t2.
Proof.
  intros H1 H2 Hle.
  rewrite !day_number_no_wrap by assumption.
  apply Z.quot_le_mono; [lia |].
  apply Z.add_le_mono_l. apply Z.quot_le_mono; lia.
Qed.

(** Witness of [day_number_monotone]. *)
Lemma day_number_monotone_witness :
  calendar.day_number (-86400000001) <= calendar.day_number 0.
Proof.
  apply day_number_monotone; int_range.
Defined.

(** X15.  From the epoch on, [day_number] is [UnixDay] plus the number of
    whole days elapsed, and one [DAY] later it is one more. *)
Theorem day_number_counts_days (t : utctime) :
  0 <= t -> t + calendar.DAY <= max_int64 ->
  calendar.day_number t = calendar.UnixDay + t / calendar.DAY
  /\ calendar.day_number (t + calendar.DAY) = calendar.day_number t + 1.
Proof.
  intros Ht Hmax.
  change calendar.DAY with 86400000000 in *.
  assert (D : forall u, 0 <= u -> u <= max_int64 ->
              calendar.day_number u = calendar.UnixDay + u / 86400000000).
  { intros u Hu Hm.
    rewrite day_number_no_wrap by int_range.
    rewrite (quot_floor_nonneg u) by lia.
    pose proof (Z.div_pos u 1000000 Hu ltac:(lia)).
    rewrite quot_floor_nonneg
      by (unfold calendar.UnixSecond, calendar.UnixDay; lia).
    unfold calendar.UnixSecond.
    rewrite Z.div_add_l by lia.
    rewrite Z.div_div by lia. reflexivity. }
  rewrite !D by lia.
  split; [reflexivity |].
  replace (t + 86400000000) with (t + 1 * 86400000000) by lia.
  rewrite Z.div_add by lia. lia.
Qed.

(** Witness of [day_number_counts_days]: the second day of 1970. *)
Lemma day_number_counts_days_witness :
  calendar.day_number 86400000000 = 2440589.
Proof.
  destruct (day_number_counts_days 86400000000) as [E _];
    [lia | vm_compute; discriminate |].
  rewrite E. reflexivity.
Defined.

(** ** Lookups in the time-zone table *)

Lemma vector_at_in_bounds {A : Type} (v : list A) (i : Z) (a : A) :
  0 <= i -> nth_error v (Z.to_nat i) = Some a -> vector_at v i = Returns a.
Proof.
  intros Hi Hn. unfold vector_at.
  assert (L : (Z.to_nat i < List.length v)%nat)
    by (apply nth_error_Some; congruence).
  rewrite (proj2 (Z.leb_le 0 i) Hi).
  rewrite (proj2 (Z.ltb_lt i _)) by lia.
  cbn [andb]. rewrite Hn. reflexivity.
Qed.

Lemma vector_at_beyond {A : Type} (v : list A) (i : Z) :
  Z.of_nat (List.length v) <= i -> vector_at v i = OutOfBounds.
Proof.
  intros Hi. unfold vector_at.
  rewrite (proj2 (Z.ltb_ge i _)) by lia.
  rewrite andb_false_r. reflexivity.
Qed.

(** The subscript of a year, as [operator[]] sees it: the offset from
    [start_year] when that is not negative, a count beyond every 32-bit
    size otherwise. *)
Lemma index_nonneg (tz : tz_table.t) (y : Z) :
  0 <= y - tz_table.start_year tz <= max_int32 ->
  tz_table.index tz y = y - tz_table.start_year tz.
Proof.
  intros H. unfold tz_table.index, to_uint64.
  rewrite wrap32_small by int_range.
  apply Z.mod_small. unfold max_int32 in H. lia.
Qed.

Lemma index_negative (tz : tz_table.t) (y : Z) :
  min_int32 <= y - tz_table.start_year tz < 0 ->
  2 ^ 64 - 2 ^ 31 <= tz_table.index tz y.
Proof.
  intros H. unfold tz_table.index, to_uint64.
  rewrite wrap32_small by int_range.
  replace (y - tz_table.start_year tz)
    with (y - tz_table.start_year tz + 2 ^ 64 + (-1) * 2 ^ 64) by lia.
  rewrite Z.mod_add by lia.
  rewrite Z.mod_small; unfold min_int32 in *; lia.
Qed.

(** A year of the table: the stored endpoints. *)
Lemma dst_start_end_stored (tz : tz_table.t) (y : Z) (p : utcperiod) :
  0 <= y - tz_table.start_year tz <= max_int32 ->
  nth_error (tz_table.dst tz) (Z.to_nat (y - tz_table.start_year tz))
  = Some p ->
  tz_table.dst_start tz y = Returns (start p)
  /\ tz_table.dst_end tz y = Returns (end_ p).
Proof.
  intros H0 Hp.
  assert (Hne : tz_table.dst tz <> []).
  { intros E. rewrite E in Hp. destruct (Z.to_nat _); discriminate Hp. }
  unfold tz_table.dst_start, tz_table.dst_end.
  rewrite (proj2 (is_dst_spec tz) Hne).
  rewrite index_nonneg by exact H0.
  rewrite (vector_at_in_bounds _ _ p (proj1 H0) Hp). split; reflexivity.
Qed.

(** Any other year: a subscript beyond the vector. *)
Lemma dst_start_end_outside (tz : tz_table.t) (y : Z) :
  tz_table.dst tz <> [] ->
  Z.of_nat (List.length (tz_table.dst tz)) <= max_int32 ->
  in_int32 (y - tz_table.start_year tz) ->
  ~ (0 <= y - tz_table.start_year tz
     < Z.of_nat (List.length (tz_table.dst tz))) ->
  tz_table.dst_start tz y = OutOfBounds
  /\ tz_table.dst_end tz y = OutOfBounds.
Proof.
  intros Hne Hlen Hy Hout.
  unfold tz_table.dst_start, tz_table.dst_end.
  rewrite (proj2 (is_dst_spec tz) Hne).
  assert (B : Z.of_nat (List.length (tz_table.dst tz))
              <= tz_table.index tz y).
  { destruct (Z.lt_ge_cases (y - tz_table.start_year tz) 0) as [N | P].
    - pose proof (index_negative tz y ltac:(int_range)).
      unfold max_int32 in Hlen. lia.
    - rewrite index_nonneg by int_range. lia. }
  rewrite (vector_at_beyond _ _ B). split; reflexivity.
Qed.

(** X16.  On a table with entries, [dst_start] and [dst_end] have no guard
    of their own: for a year of the table they return the endpoints stored
    for it, and for any other year they read outside the vector. *)
Theorem dst_start_end_in_table_only (tz : tz_table.t) (y : Z) :
  tz_table.dst tz <> [] ->
  Z.of_nat (List.length (tz_table.dst tz)) <= max_int32 ->
  in_int32 (y - tz_table.start_year tz) ->
  (forall p,
      0 <= y - tz_table.start_year tz ->
      nth_error (tz_table.dst tz) (Z.to_nat (y - tz_table.start_year tz))
      = Some p ->
      tz_table.dst_start tz y = Returns (start p)
      /\ tz_table.dst_end tz y = Returns (end_ p))
  /\ (~ (0 <= y - tz_table.start_year tz
         < Z.of_nat (List.length (tz_table.dst tz))) ->
      tz_table.dst_start tz y = OutOfBounds
      /\ tz_table.dst_end tz y = OutOfBounds).
Proof.
  intros Hne Hlen Hy.
  split.
  - intros p H0 Hp. apply dst_start_end_stored; [int_range | exact Hp].
  - intros Hout. apply dst_start_end_outside; assumption.
Qed.

(** Witness of [dst_start_end_in_table_only]: the year after the only year
    of the table. *)
Lemma dst_start_end_in_table_only_witness :
  tz_table.dst_start oslo_2016 2017 = OutOfBounds.
Proof.
  destruct (dst_start_end_in_table_only oslo_2016 2017) as [_ H].
  - discriminate.
  - vm_compute. discriminate.
  - vm_compute. split; discriminate.
  - apply H. vm_compute. intros [_ C]. discriminate C.
Defined.

Section TableLookups.

Variable from_day_number : Z -> outcome YMDhms.t.

(** X17.  Asked for the offset at [no_utctime], a table with entries throws
    the error of [utc_year]; it has no answer for the absent instant. *)
Theorem dst_offset_of_no_utctime_throws (tz : tz_table.t) :
  tz_table.dst tz <> [] ->
  tz_table.dst_offset from_day_number tz no_utctime
  = Throws "year of no_utctime"%string.
Proof.
  intros Hne. unfold tz_table.dst_offset.
  rewrite (proj2 (is_dst_spec tz) Hne). reflexivity.
Qed.

(** The offset for an instant whose year has an entry in both vectors. *)
Lemma dst_offset_in_table (tz : tz_table.t) (t : utctime) (y : Z)
    (p : utcperiod) (d : utctimespan) :
  calendar.utc_year from_day_number t = Returns y ->
  Z.of_nat (List.length (tz_table.dst tz)) <= max_int32 ->
  0 <= y - tz_table.start_year tz ->
  nth_error (tz_table.dst tz) (Z.to_nat (y - tz_table.start_year tz))
  = Some p ->
  nth_error (tz_table.dt tz) (Z.to_nat (y - tz_table.start_year tz))
  = Some d ->
  tz_table.dst_offset from_day_number tz t
  = Returns (if (if start p <? end_ p
                 then (t >=? start p) && (t <? end_ p)
                 else (t <? end_ p) || (t >=? start p))
             then d else 0).
Proof.
  intros Hy Hlen H0 Hp Hd.
  assert (L : (Z.to_nat (y - tz_table.start_year tz)
               < List.length (tz_table.dst tz))%nat)
    by (apply nth_error_Some; congruence).
  assert (Hne : tz_table.dst tz <> []).
  { intros E. rewrite E in L. simpl in L. lia. }
  destruct (dst_start_end_stored tz y p ltac:(int_range) Hp) as [Hs He].
  unfold tz_table.dst_offset.
  rewrite (proj2 (is_dst_spec tz) Hne); cbn [negb].
  rewrite Hy; cbn [bind].
  rewrite !wrap32_small by int_range.
  destruct (y - tz_table.start_year tz
            >=? Z.of_nat (List.length (tz_table.dst tz))) eqn:G.
  { apply Z.geb_le in G. lia. }
  rewrite Hs, He; cbn [bind].
  rewrite index_nonneg by int_range.
  rewrite (vector_at_in_bounds _ _ d H0 Hd).
  destruct (if start p <? end_ p
            then (t >=? start p) && (t <? end_ p)
            else (t <? end_ p) || (t >=? start p)); reflexivity.
Qed.

(** X18.  In a year whose period has its start before its end, the offset
    applies on the half-open period: the entry of [dt] from the start on,
    zero from the end on and before the start. *)
Theorem dst_offset_half_open (tz : tz_table.t) (t : utctime) (y : Z)
    (p : utcperiod) (d : utctimespan) :
  calendar.utc_year from_day_number t = Returns y ->
  Z.of_nat (List.length (tz_table.dst tz)) <= max_int32 ->
  0 <= y - tz_table.start_year tz ->
  nth_error (tz_table.dst tz) (Z.to_nat (y - tz_table.start_year tz))
  = Some p ->
  nth_error (tz_table.dt tz) (Z.to_nat (y - tz_table.start_year tz))
  = Some d ->
  start p < end_ p ->
  (start p <= t < end_ p ->
   tz_table.dst_offset from_day_number tz t = Returns d)
  /\ (~ start p <= t < end_ p ->
      tz_table.dst_offset from_day_number tz t = Returns 0).
Proof.
  intros Hy Hlen H0 Hp Hd Hse.
  rewrite (dst_offset_in_table tz t y p d Hy Hlen H0 Hp Hd).
  rewrite (proj2 (Z.ltb_lt _ _) Hse), Z.geb_leb.
  split; intros H.
  - rewrite (proj2 (Z.leb_le _ _)), (proj2 (Z.ltb_lt _ _)) by lia.
    reflexivity.
  - destruct (Z.leb_spec (start p) t); destruct (Z.ltb_spec t (end_ p));
      cbn [andb]; try reflexivity; lia.
Qed.

(** X19.  In a year whose period does not have its start before its end,
    the period is read as wrapping around the year: the entry of [dt]
    applies before the end and from the start on, zero in between.  When
    start and end coincide, as in the default period, the entry of [dt]
    applies at every instant of the year. *)
Theorem dst_offset_wrapping (tz : tz_table.t) (t : utctime) (y : Z)
    (p : utcperiod) (d : utctimespan) :
  calendar.utc_year from_day_number t = Returns y ->
  Z.of_nat (List.length (tz_table.dst tz)) <= max_int32 ->
  0 <= y - tz_table.start_year tz ->
  nth_error (tz_table.dst tz) (Z.to_nat (y - tz_table.start_year tz))
  = Some p ->
  nth_error (tz_table.dt tz) (Z.to_nat (y - tz_table.start_year tz))
  = Some d ->
  end_ p <= start p ->
  (t < end_ p \/ start p <= t ->
   tz_table.dst_offset from_day_number tz t = Returns d)
  /\ (end_ p <= t < start p ->
      tz_table.dst_offset from_day_number tz t = Returns 0)
  /\ (start p = end_ p ->
      tz_table.dst_offset from_day_number tz t = Returns d).
Proof.
  intros Hy Hlen H0 Hp Hd Hse.
  rewrite (dst_offset_in_table tz t y p d Hy Hlen H0 Hp Hd).
  rewrite (proj2 (Z.ltb_ge _ _) Hse), Z.geb_leb.
  repeat split; intros H;
    destruct (Z.ltb_spec t (end_ p)); destruct (Z.leb_spec (start p) t);
    cbn [orb]; try reflexivity; lia.
Qed.

End TableLookups.

(** Witness of [dst_offset_of_no_utctime_throws]. *)
Lemma dst_offset_of_no_utctime_throws_witness :
  tz_table.dst_offset calendar.from_day_number oslo_2016 no_utctime
  = Throws "year of no_utctime"%string.
Proof.
  apply dst_offset_of_no_utctime_throws. discriminate.
Defined.

(** Witness of [dst_offset_half_open]: the first instant of the summer time
    of 2016 has the offset, the first instant after it has none. *)
Lemma dst_offset_half_open_witness :
  tz_table.dst_offset calendar.from_day_number oslo_2016 1459040400000000
  = Returns calendar.HOUR
  /\ tz_table.dst_offset calendar.from_day_number oslo_2016 1477789200000000
     = Returns 0.
Proof.
  split.
  - apply (dst_offset_half_open calendar.from_day_number oslo_2016
             1459040400000000 2016
             (mk_utcperiod 1459040400000000 1477789200000000) calendar.HOUR);
      try reflexivity; cbn; try lia; try (vm_compute; discriminate).
  - apply (dst_offset_half_open calendar.from_day_number oslo_2016
             1477789200000000 2016
             (mk_utcperiod 1459040400000000 1477789200000000) calendar.HOUR);
      try reflexivity; cbn; try lia; try (vm_compute; discriminate).
Defined.

(** Witness of [dst_offset_wrapping]: mid-January and mid-July 2016 in
    Sydney. *)
Lemma dst_offset_wrapping_witness :
  tz_table.dst_offset calendar.from_day_number sydney_2016 1452816000000000
  = Returns calendar.HOUR
  /\ tz_table.dst_offset calendar.from_day_number sydney_2016 1468540800000000
     = Returns 0.
Proof.
  assert (L : Z.of_nat (List.length (tz_table.dst sydney_2016)) <= max_int32)
    by (vm_compute; discriminate).
  assert (S : end_ (mk_utcperiod 1475337600000000 1459612800000000)
              <= start (mk_utcperiod 1475337600000000 1459612800000000))
    by (cbn; lia).
  split.
  - destruct (dst_offset_wrapping calendar.from_day_number sydney_2016
                1452816000000000 2016 _ calendar.HOUR
                eq_refl L ltac:(cbn; lia) eq_refl eq_refl S) as (H & _ & _).
    apply H. cbn. lia.
  - destruct (dst_offset_wrapping calendar.from_day_number sydney_2016
                1468540800000000 2016 _ calendar.HOUR
                eq_refl L ltac:(cbn; lia) eq_refl eq_refl S) as (_ & H & _).
    apply H. cbn. lia.
Defined.

(** ** The table built from a rule provider *)

Lemma wrap32_congruence (x y : Z) :
  (x - y) mod 2 ^ 32 = 0 -> wrap32 x = wrap32 y.
Proof.
  intros H. unfold wrap32. f_equal.
  apply Z.mod_divide in H; [| lia]. destruct H as [k H].
  replace (x + 2 ^ 31) with (y + 2 ^ 31 + k * 2 ^ 32) by lia.
  apply Z.mod_add. lia.
Qed.

(** The loop bound [int(start_year + n_years)] is the plain sum whenever the
    sum is an [int]. *)
Lemma loop_bound_exact (sy n : Z) :
  in_int32 (sy + n) -> wrap32 (to_uint64 (to_uint64 sy + n)) = sy + n.
Proof.
  intros H. rewrite <- (wrap32_small (sy + n) H).
  apply wrap32_congruence. unfold to_uint64.
  rewrite (Z.mod_eq (sy mod 2 ^ 64 + n)) by lia.
  rewrite (Z.mod_eq sy (2 ^ 64)) by lia.
  apply Z.mod_divide; [lia |].
  exists (- 2 ^ 32 * ((sy - 2 ^ 64 * (sy / 2 ^ 64) + n) / 2 ^ 64)
          - 2 ^ 32 * (sy / 2 ^ 64)).
  change (2 ^ 64) with (2 ^ 32 * 2 ^ 32). lia.
Qed.

(** What the loop appends: one entry per year, in year order. *)
Lemma fill_appends (tz : tz_table.provider) (n : nat) :
  forall (y : Z) (dst0 : list utcperiod) (dt0 : list utctimespan),
    tz_table.fill tz y n dst0 dt0
    = (dst0 ++ List.map
                 (fun k => mk_utcperiod
                             (tz_table.p_dst_start tz (y + Z.of_nat k))
                             (tz_table.p_dst_end tz (y + Z.of_nat k)))
                 (seq 0 n),
       dt0 ++ List.map
                (fun k => tz_table.p_dst_offset tz (y + Z.of_nat k))
                (seq 0 n)).
Proof.
  induction n as [| n IH]; intros y dst0 dt0.
  - cbn. rewrite !app_nil_r. reflexivity.
  - cbn [tz_table.fill]. rewrite IH.
    rewrite <- !app_assoc. cbn [seq List.map app].
    rewrite <- !seq_shift, !map_map.
    rewrite Z.add_0_r.
    f_equal; f_equal; f_equal; apply map_ext; intros k;
      replace (y + Z.of_nat (S k)) with (y + 1 + Z.of_nat k) by lia;
      reflexivity.
Qed.

Lemma nth_error_map_seq {A : Type} (f : nat -> A) (n k : nat) :
  (k < n)%nat -> nth_error (List.map f (seq 0 n)) k = Some (f k).
Proof.
  intros H. rewrite nth_error_map, nth_error_seq.
  rewrite (proj2 (Nat.ltb_lt k n) H). reflexivity.
Qed.

(** The two vectors of the table built from a provider. *)
Lemma of_provider_vectors (tz : tz_table.provider) (sy n : Z) :
  in_int32 (sy + n) -> 0 <= n ->
  tz_table.of_provider tz sy n
  = tz_table.mk sy (tz_table.p_name tz)
      (List.map
         (fun k => mk_utcperiod (tz_table.p_dst_start tz (sy + Z.of_nat k))
                                (tz_table.p_dst_end tz (sy + Z.of_nat k)))
         (seq 0 (Z.to_nat n)))
      (List.map (fun k => tz_table.p_dst_offset tz (sy + Z.of_nat k))
         (seq 0 (Z.to_nat n))).
Proof.
  intros Hb Hn. unfold tz_table.of_provider.
  rewrite loop_bound_exact by exact Hb.
  rewrite fill_appends. cbn [fst snd app].
  replace (sy + n - sy) with n by lia. reflexivity.
Qed.

(** X20.  The table built from a provider for [n_years] years from
    [start_year] has one entry per year in both vectors, and for every year
    of that range [dst_start] and [dst_end] return what the provider gave
    for it. *)
Theorem of_provider_reproduces_provider
    (tz : tz_table.provider) (sy n y : Z) :
  in_int32 sy -> 0 <= n <= max_int32 -> sy + n <= max_int32 ->
  sy <= y < sy + n ->
  let tbl := tz_table.of_provider tz sy n in
  Z.of_nat (List.length (tz_table.dst tbl)) = n
  /\ Z.of_nat (List.length (tz_table.dt tbl)) = n
  /\ tz_table.dst_start tbl y = Returns (tz_table.p_dst_start tz y)
  /\ tz_table.dst_end tbl y = Returns (tz_table.p_dst_end tz y)
  /\ nth_error (tz_table.dt tbl) (Z.to_nat (y - sy))
     = Some (tz_table.p_dst_offset tz y).
Proof.
  intros Hsy Hn Hmax Hy tbl. subst tbl.
  rewrite of_provider_vectors by int_range.
  cbn [tz_table.dst tz_table.dt].
  assert (K : (Z.to_nat (y - sy) < Z.to_nat n)%nat) by lia.
  assert (E : sy + Z.of_nat (Z.to_nat (y - sy)) = y) by lia.
  split; [rewrite length_map, length_seq; lia |].
  split; [rewrite length_map, length_seq; lia |].
  rewrite <- and_assoc. split.
  - match goal with
    | |- tz_table.dst_start ?T _ = _ /\ _ =>
        pose proof (dst_start_end_stored T y) as Hin
    end.
    cbn [tz_table.dst tz_table.start_year] in Hin.
    specialize (Hin _ ltac:(int_range) (nth_error_map_seq _ _ _ K)).
    cbn [start end_] in Hin. rewrite E in Hin. exact Hin.
  - rewrite (nth_error_map_seq _ _ _ K), E. reflexivity.
Qed.

(** Witness of [of_provider_reproduces_provider]: the default window of the
    constructor, 200 years from 1905, asked for 2016. *)
Lemma of_provider_reproduces_provider_witness :
  tz_table.dst_start (tz_table.of_provider constant_provider 1905 200) 2016
  = Returns 1459040400000000.
Proof.
  exact (proj1 (proj2 (proj2
           (of_provider_reproduces_provider constant_provider 1905 200 2016
              ltac:(int_range) ltac:(int_range) ltac:(int_range)
              ltac:(lia))))).
Defined.

Section ProviderOffsets.

Variable from_day_number : Z -> outcome YMDhms.t.

(** X21.  Through the table, the offset at an instant whose UTC year [y] is
    in the window is the provider's offset for [y] when the instant lies in
    the provider's period for [y], and zero otherwise (for a period with its
    start before its end). *)
Theorem of_provider_dst_offset
    (tz : tz_table.provider) (sy n : Z) (t : utctime) (y : Z) :
  in_int32 sy -> 0 <= n <= max_int32 -> sy + n <= max_int32 ->
  calendar.utc_year from_day_number t = Returns y ->
  sy <= y < sy + n ->
  tz_table.p_dst_start tz y < tz_table.p_dst_end tz y ->
  let tbl := tz_table.of_provider tz sy n in
  (tz_table.p_dst_start tz y <= t < tz_table.p_dst_end tz y ->
   tz_table.dst_offset from_day_number tbl t
   = Returns (tz_table.p_dst_offset tz y))
  /\ (~ tz_table.p_dst_start tz y <= t < tz_table.p_dst_end tz y ->
      tz_table.dst_offset from_day_number tbl t = Returns 0).
Proof.
  intros Hsy Hn Hmax Hyear Hy Hse tbl. subst tbl.
  rewrite of_provider_vectors by int_range.
  assert (K : (Z.to_nat (y - sy) < Z.to_nat n)%nat) by lia.
  assert (E : sy + Z.of_nat (Z.to_nat (y - sy)) = y) by lia.
  match goal with
  | |- (_ -> tz_table.dst_offset _ ?T _ = _) /\ _ =>
      pose proof (dst_offset_in_table from_day_number T t y) as Hin
  end.
  cbn [tz_table.dst tz_table.dt tz_table.start_year] in Hin.
  specialize (Hin _ _ Hyear
                ltac:(rewrite length_map, length_seq; lia) ltac:(lia)
                (nth_error_map_seq _ _ _ K) (nth_error_map_seq _ _ _ K)).
  cbn [start end_] in Hin. rewrite E in Hin. rewrite Hin.
  rewrite (proj2 (Z.ltb_lt _ _) Hse), Z.geb_leb.
  split; intros H.
  - rewrite (proj2 (Z.leb_le _ _)), (proj2 (Z.ltb_lt _ _)) by lia.
    reflexivity.
  - destruct (Z.leb_spec (tz_table.p_dst_start tz y) t);
      destruct (Z.ltb_spec t (tz_table.p_dst_end tz y));
      cbn [andb]; try reflexivity; lia.
Qed.

End ProviderOffsets.

(** Witness of [of_provider_dst_offset]: 2016-07-01T00:00:00Z in the default
    window. *)
Lemma of_provider_dst_offset_witness :
  tz_table.dst_offset calendar.from_day_number
    (tz_table.of_provider constant_provider 1905 200) 1467331200000000
  = Returns calendar.HOUR.
Proof.
  assert (Y : calendar.utc_year calendar.from_day_number 1467331200000000
              = Returns 2016) by reflexivity.
  apply (proj1 (of_provider_dst_offset calendar.from_day_number
                  constant_provider 1905 200 1467331200000000 2016
                  ltac:(int_range) ltac:(int_range) ltac:(int_range) Y
                  ltac:(lia) ltac:(cbn; lia))).
  cbn. lia.
Defined.

(** ** Offsets of a time zone *)

Section ZoneOffsets.

Variable from_day_number : Z -> outcome YMDhms.t.

(** X22.  A zone built from a fixed offset has that offset at every
    instant, [no_utctime] included, and is never in summer time: it does not
    look at the instant at all. *)
Theorem fixed_offset_zone (base : utctimespan) (t : utctime) :
  in_int64 base ->
  tz_info.utc_offset from_day_number (tz_info.of_base base) t = Returns base
  /\ tz_info.is_dst from_day_number (tz_info.of_base base) t = Returns false
  /\ tz_info.base_offset (tz_info.of_base base) = base.
Proof.
  intros Hb.
  unfold tz_info.utc_offset, tz_info.is_dst, tz_info.of_base.
  cbn [tz_info.tz tz_info.base_tz tz_info.base_offset].
  rewrite dst_offset_empty_table by reflexivity.
  cbn [bind]. rewrite Z.add_0_r, (wrap64_small _ Hb).
  repeat split.
Qed.

(** X23.  Whatever the table, [is_dst] and [utc_offset] agree: when the
    table answers, the zone is in summer time exactly when its offset
    differs from the base offset; when the table throws or reads out of
    bounds, so do both. *)
Theorem is_dst_iff_offset_differs (i : tz_info.t) (t : utctime) :
  in_int64 (tz_info.base_tz i) ->
  match tz_table.dst_offset from_day_number (tz_info.tz i) t with
  | Returns d =>
      in_int64 d ->
      exists o,
        tz_info.utc_offset from_day_number i t = Returns o
        /\ tz_info.is_dst from_day_number i t
           = Returns (negb (o =? tz_info.base_offset i))
  | Throws w =>
      tz_info.utc_offset from_day_number i t = Throws w
      /\ tz_info.is_dst from_day_number i t = Throws w
  | OutOfBounds =>
      tz_info.utc_offset from_day_number i t = OutOfBounds
      /\ tz_info.is_dst from_day_number i t = OutOfBounds
  end.
Proof.
  intros Hb. unfold tz_info.utc_offset, tz_info.is_dst, tz_info.base_offset.
  destruct (tz_table.dst_offset from_day_number (tz_info.tz i) t)
    as [d | w |]; cbn [bind]; [| split; reflexivity | split; reflexivity].
  intros Hd. exists (wrap64 (tz_info.base_tz i + d)).
  split; [reflexivity |]. do 2 f_equal.
  destruct (Z.eqb_spec d 0) as [-> | Nz].
  - rewrite Z.add_0_r, (wrap64_small _ Hb), Z.eqb_refl. reflexivity.
  - symmetry. apply Z.eqb_neq. intros E.
    pose proof (wrap64_congruent (tz_info.base_tz i + d)) as C.
    rewrite E in C.
    replace (tz_info.base_tz i - (tz_info.base_tz i + d)) with (- d) in C
      by lia.
    apply Z.mod_divide in C; [| lia]. destruct C as [k C].
    unfold in_int64, min_int64, max_int64 in Hd. nia.
Qed.

End ZoneOffsets.

(** Witness of [fixed_offset_zone]: the zone of +5h30m at [no_utctime]. *)
Lemma fixed_offset_zone_witness :
  tz_info.utc_offset calendar.from_day_number
    (tz_info.of_base 19800000000) no_utctime
  = Returns 19800000000.
Proof.
  exact (proj1 (fixed_offset_zone calendar.from_day_number
                  19800000000 no_utctime ltac:(int_range))).
Defined.

(** Witness of [is_dst_iff_offset_differs]: a zone one hour east of
    Greenwich with the rule of 2016, on 2016-07-01T00:00:00Z. *)
Lemma is_dst_iff_offset_differs_witness :
  exists o,
    tz_info.utc_offset calendar.from_day_number
      (tz_info.mk 3600000000 oslo_2016) 1467331200000000 = Returns o
    /\ tz_info.is_dst calendar.from_day_number
         (tz_info.mk 3600000000 oslo_2016) 1467331200000000
       = Returns (negb (o =? 3600000000)).
Proof.
  pose proof (is_dst_iff_offset_differs calendar.from_day_number
                (tz_info.mk 3600000000 oslo_2016) 1467331200000000
                ltac:(cbn; int_range)) as H.
  cbn [tz_info.tz] in H.
  change (tz_table.dst_offset calendar.from_day_number oslo_2016
            1467331200000000) with (@Returns utctimespan 3600000000) in H.
  apply H. int_range.
Defined.

(** X24.  [calendar(tz_s)] stands at [tz_s] seconds from UTC at every
    instant, for every [int] number of seconds, and never in summer time. *)
Theorem calendar_of_seconds_offset
    (from_day_number : Z -> outcome YMDhms.t) (tz_s : Z) (t : utctime) :
  in_int32 tz_s ->
  let info := calendar_tz.get_tz_info (calendar_tz.of_seconds tz_s) in
  tz_info.utc_offset from_day_number info t
  = Returns (tz_s * calendar.SECOND)
  /\ tz_info.is_dst from_day_number info t = Returns false.
Proof.
  intros Hs info. subst info.
  unfold calendar_tz.get_tz_info, calendar_tz.of_seconds.
  cbn [calendar_tz.tz_info]. change calendar.SECOND with 1000000.
  assert (R : in_int64 (tz_s * 1000000)) by int_range.
  rewrite (wrap64_small _ R).
  unfold tz_info.utc_offset, tz_info.is_dst, tz_info.of_base.
  cbn [tz_info.tz tz_info.base_tz].
  rewrite dst_offset_empty_table by reflexivity.
  cbn [bind]. rewrite Z.add_0_r, (wrap64_small _ R).
  split; reflexivity.
Qed.

(** Witness of [calendar_of_seconds_offset]: one hour east. *)
Lemma calendar_of_seconds_offset_witness :
  tz_info.utc_offset calendar.from_day_number
    (calendar_tz.get_tz_info (calendar_tz.of_seconds 3600)) 0
  = Returns 3600000000.
Proof.
  exact (proj1 (calendar_of_seconds_offset calendar.from_day_number
                  3600 0 ltac:(int_range))).
Defined.

(** ** The time-zone database *)

Lemma in_region_list_iff (m : StringMap.t tz_info.t) (k : string) :
  In k (List.map fst (StringMap.elements m))
  <-> exists i, StringMap.find k m = Some i.
Proof.
  split.
  - intros H. apply in_map_iff in H. destruct H as [[k' i] [E H]].
    cbn in E. subst k'. exists i.
    apply StringMapFacts.find_mapsto_iff, StringMapFacts.elements_mapsto_iff.
    apply In_InA; [| exact H].
    typeclasses eauto.
  - intros [i H].
    apply StringMapFacts.find_mapsto_iff, StringMapFacts.elements_mapsto_iff in H.
    apply InA_alt in H. destruct H as [[k' i'] [[E1 E2] H]].
    cbn in E1, E2. subst k' i'.
    apply in_map_iff. exists (k, i). split; [reflexivity | exact H].
Qed.

(** X25.  A region is found exactly when it is in the region list: for a
    listed region [tz_info_from_region] returns the zone stored for it, and
    for any other it throws, naming the region asked for. *)
Theorem region_lookup_iff_listed (db : tz_info_database.t) (k : string) :
  (In k (tz_info_database.get_region_list db)
   <-> exists i, tz_info_database.tz_info_from_region db k = Returns i)
  /\ (~ In k (tz_info_database.get_region_list db)
      <-> tz_info_database.tz_info_from_region db k
          = Throws (append "tz region '" (append k "' not found"))%string).
Proof.
  unfold tz_info_database.get_region_list,
    tz_info_database.tz_info_from_region.
  rewrite in_region_list_iff.
  destruct (StringMap.find k (tz_info_database.region_tz_map db)) as [i |].
  - split; split.
    + intros _. exists i. reflexivity.
    + intros _. exists i. reflexivity.
    + intros H. exfalso. apply H. exists i. reflexivity.
    + discriminate.
  - split; split.
    + intros [i H]. discriminate H.
    + intros [i H]. discriminate H.
    + reflexivity.
    + intros _ [i H]. discriminate H.
Qed.

(** X26.  The same for short names: a name is found exactly when it is in
    the name list, and a missing name is reported in the error. *)
Theorem name_lookup_iff_listed (db : tz_info_database.t) (k : string) :
  (In k (tz_info_database.get_name_list db)
   <-> exists i, tz_info_database.tz_info_from_name db k = Returns i)
  /\ (~ In k (tz_info_database.get_name_list db)
      <-> tz_info_database.tz_info_from_name db k
          = Throws (append "tz name '" (append k "' not found"))%string).
Proof.
  unfold tz_info_database.get_name_list, tz_info_database.tz_info_from_name.
  rewrite in_region_list_iff.
  destruct (StringMap.find k (tz_info_database.name_tz_map db)) as [i |].
  - split; split.
    + intros _. exists i. reflexivity.
    + intros _. exists i. reflexivity.
    + intros H. exfalso. apply H. exists i. reflexivity.
    + discriminate.
  - split; split.
    + intros [i H]. discriminate H.
    + intros [i H]. discriminate H.
    + reflexivity.
    + intros _ [i H]. discriminate H.
Qed.

(** X27.  The region list names every region once: it has as many entries
    as the map and no string twice. *)
Theorem region_list_no_duplicates (db : tz_info_database.t) :
  NoDup (tz_info_database.get_region_list db)
  /\ List.length (tz_info_database.get_region_list db)
     = StringMap.cardinal (tz_info_database.region_tz_map db).
Proof.
  unfold tz_info_database.get_region_list.
  split.
  - pose proof (StringMap.elements_3w (tz_info_database.region_tz_map db))
      as H.
    induction H as [| [k i] l Hn _ IH]; cbn [List.map fst].
    + constructor.
    + constructor; [| exact IH].
      intros C. apply Hn. apply in_map_iff in C.
      destruct C as [[k' i'] [E C]]. cbn in E. subst k'.
      apply InA_alt. exists (k, i'). split; [reflexivity | exact C].
  - rewrite length_map. symmetry. apply StringMap.cardinal_1.
Qed.

(** ** More on periods and on the table guard *)

(** X28.  The length of a valid period is its end minus its start and is
    not negative, as long as that difference is a 64-bit count; it is zero
    exactly for a period that starts where it ends. *)
Theorem timespan_of_valid_period (p : utcperiod) :
  period_in_range p -> Period.valid p = true ->
  end_ p - start p <= max_int64 ->
  Period.timespan p = end_ p - start p
  /\ 0 <= Period.timespan p
  /\ (Period.timespan p = 0 <-> start p = end_ p).
Proof.
  intros [Hs He] V Hfit. apply valid_spec in V.
  unfold Period.timespan. rewrite wrap64_small by int_range. lia.
Qed.

(** Witness of [timespan_of_valid_period]. *)
Lemma timespan_of_valid_period_witness :
  Period.timespan (mk_utcperiod (-5) 10) = 15.
Proof.
  exact (proj1 (timespan_of_valid_period (mk_utcperiod (-5) 10)
                  ltac:(split; cbn; int_range) eq_refl
                  ltac:(cbn; int_range))).
Defined.

(** X29.  Containment of periods orders the valid periods: every valid
    period contains itself, containment is transitive, and two periods that
    contain each other are the same period. *)
Theorem contains_period_partial_order :
  (forall a, Period.valid a = true -> Period.contains_period a a = true)
  /\ (forall a b c,
         Period.contains_period a b = true ->
         Period.contains_period b c = true ->
         Period.contains_period a c = true)
  /\ (forall a b,
         Period.contains_period a b = true ->
         Period.contains_period b a = true -> a = b).
Proof.
  unfold Period.contains_period.
  split; [| split].
  - intros a V. rewrite V, !andb_true_l.
    rewrite andb_true_iff, Z.geb_le, Z.leb_le. lia.
  - intros a b c.
    rewrite !andb_true_iff, !Z.geb_le, !Z.leb_le.
    intros [[[Va Vb] S1] E1] [[[_ Vc] S2] E2].
    repeat split; try assumption; lia.
  - intros [sa ea] [sb eb].
    rewrite !andb_true_iff, !Z.geb_le, !Z.leb_le. cbn [start end_].
    intros [[_ S1] E1] [[_ S2] E2].
    f_equal; lia.
Qed.

(** X30.  The guard of [dst_offset] at the upper end: for an instant whose
    UTC year is the last year of the table plus one, or any later year, the
    offset is zero and no entry is read. *)
Theorem dst_offset_zero_after_table
    (from_day_number : Z -> outcome YMDhms.t)
    (tz : tz_table.t) (t : utctime) (y : Z) :
  calendar.utc_year from_day_number t = Returns y ->
  Z.of_nat (List.length (tz_table.dst tz)) <= max_int32 ->
  tz_table.start_year tz + Z.of_nat (List.length (tz_table.dst tz)) <= y ->
  y - tz_table.start_year tz <= max_int32 ->
  tz_table.dst_offset from_day_number tz t = Returns 0.
Proof.
  intros Hy Hlen Hlo Hhi.
  apply (dst_offset_after_table from_day_number tz t y Hy Hlen). lia.
Qed.

(** Witness of [dst_offset_zero_after_table]: 2017-07-01T00:00:00Z against
    the table of 2016. *)
Lemma dst_offset_zero_after_table_witness :
  tz_table.dst_offset calendar.from_day_number oslo_2016 1498867200000000
  = Returns 0.
Proof.
  apply (dst_offset_zero_after_table calendar.from_day_number oslo_2016
           1498867200000000 2017 eq_refl);
    vm_compute; discriminate.
Defined.
